(** * CSV2API-Converter: the query core of [app.py]

    A shallow embedding of the FastAPI application built by [create_app]:
    the upload handler, the two query handlers ([get_records], [search]),
    the helpers [_clean_df] and [_cast_type], and the fragments of the
    Python runtime and of pandas that these functions call.

    Conventions.
    - Text is [string] (a sequence of 8-bit characters) and stands for
      ASCII text: case folding, digits and blanks are those of ASCII, and
      a character is one byte.  What the interpreter does on text of
      other scripts (case folding of Unicode, decimal digits of other
      scripts, one character on several bytes) is outside the model; the
      statements that depend on it are made for ASCII text.
    - A Python call that may raise returns a [result]: [Ok v] or [Raise e].
    - A float64 is a [spec_float] of the Standard Library at precision 53,
      so that NaN, the two infinities and the two zeros are values, and
      [==] is the IEEE comparison. *)

From Stdlib Require Import ZArith List Bool Ascii String Lia.
From Stdlib Require Import SpecFloat.
Import ListNotations.

Set Warnings "-register-all".

Local Open Scope string_scope.
Local Open Scope Z_scope.

(** ** Exceptions and results *)

Inductive exn : Type :=
| HTTPException (status_code : Z) (detail : string)
| ValueError (msg : string)
| ReError (msg : string)
| Exception (msg : string).

Inductive result (A : Type) : Type :=
| Ok (a : A)
| Raise (e : exn).

Arguments Ok {A} a.
Arguments Raise {A} e.

Definition bind {A B : Type} (m : result A) (k : A -> result B) : result B :=
  match m with
  | Ok a => k a
  | Raise e => Raise e
  end.

Notation "x <- m ;; k" := (bind m (fun x => k))
  (at level 61, m at next level, right associativity).

(** [str(e)] for an exception. *)
Definition exn_str (e : exn) : string :=
  match e with
  | HTTPException _ detail => detail
  | ValueError msg => msg
  | ReError msg => msg
  | Exception msg => msg
  end.

(** ** Characters and text *)

Module Text.

Definition code (c : ascii) : Z := Z.of_nat (nat_of_ascii c).

Definition is_digit (c : ascii) : bool := (48 <=? code c) && (code c <=? 57).

Definition is_space (c : ascii) : bool :=
  ((9 <=? code c) && (code c <=? 13)) || (code c =? 32).

Definition is_upper (c : ascii) : bool := (65 <=? code c) && (code c <=? 90).

(** Lower case of an ASCII character; the characters that are not ASCII
    capitals are left as they are. *)
Definition lower_char (c : ascii) : ascii :=
  if is_upper c then ascii_of_nat (nat_of_ascii c + 32) else c.

Definition chars (s : string) : list ascii := list_ascii_of_string s.
Definition text (l : list ascii) : string := string_of_list_ascii l.

(** [s.lower()], for ASCII text. *)
Definition lower (s : string) : string := text (map lower_char (chars s)).

Fixpoint lstrip (l : list ascii) : list ascii :=
  match l with
  | c :: l' => if is_space c then lstrip l' else l
  | [] => []
  end.

(** [s.strip()] on the character list. *)
Definition strip (l : list ascii) : list ascii := rev (lstrip (rev (lstrip l))).

Fixpoint prefix_of (p l : list ascii) : bool :=
  match p, l with
  | [], _ => true
  | a :: p', b :: l' => Ascii.eqb a b && prefix_of p' l'
  | _ :: _, [] => false
  end.

(** [s.endswith(suffix)] *)
Definition endswith (s suffix : string) : bool :=
  prefix_of (rev (chars suffix)) (rev (chars s)).

(** [sub in s] for character lists: [sub] occurs at some offset of [l]. *)
Fixpoint occurs (sub l : list ascii) : bool :=
  prefix_of sub l ||
  match l with
  | [] => false
  | _ :: l' => occurs sub l'
  end.

(** [sub in s] *)
Definition contains (s sub : string) : bool := occurs (chars sub) (chars s).

End Text.

(** ** Integers as text: [str(int)] and [int(str)] *)

Module PyInt.
Import Text.

Definition digit_char (d : Z) : ascii := ascii_of_nat (Z.to_nat (48 + d)).
Definition digit_val (c : ascii) : Z := code c - 48.

(** Decimal digits of [n >= 0], least significant first. *)
Fixpoint rdigits (fuel : nat) (n : Z) : list ascii :=
  match fuel with
  | O => []
  | S fuel' =>
      digit_char (n mod 10) ::
      (if n <? 10 then [] else rdigits fuel' (n / 10))
  end.

Definition digits (n : Z) : list ascii :=
  rev (rdigits (S (Z.to_nat (Z.log2 n))) n).

(** The interpreter converts between [int] and text up to this number
    of digits ([sys.get_int_max_str_digits()]). *)
Definition max_str_digits : Z := 4300.

(** [str(z)], for an integer of [max_str_digits] digits at most, as is
    every integer of 64 bits; on a longer one [str] raises [ValueError]
    and this text is not produced. *)
Definition str (z : Z) : string :=
  text (if z <? 0 then "-"%char :: digits (- z) else digits z).

(** The number written by a list of decimal digits ([None] when a
    character is not a digit). *)
Fixpoint number (l : list ascii) (acc : Z) : option Z :=
  match l with
  | [] => Some acc
  | c :: l' => if is_digit c then number l' (10 * acc + digit_val c) else None
  end.

(** Underscores of a numeric literal: each one stands between two digits.
    Returns the text without them, or [None] when one is misplaced. *)
Fixpoint drop_underscores (prev_digit : bool) (l : list ascii) : option (list ascii) :=
  match l with
  | [] => Some []
  | c :: l' =>
      if Ascii.eqb c "_" then
        match l' with
        | d :: _ =>
            if prev_digit && is_digit d then drop_underscores false l' else None
        | [] => None
        end
      else
        match drop_underscores (is_digit c) l' with
        | Some r => Some (c :: r)
        | None => None
        end
  end.

Definition split_sign (l : list ascii) : bool * list ascii :=
  match l with
  | c :: r =>
      if Ascii.eqb c "-" then (true, r)
      else if Ascii.eqb c "+" then (false, r)
      else (false, l)
  | [] => (false, [])
  end.

(** [int(s)] in base ten on ASCII text: blanks around, an optional sign,
    digits with single underscores between them, [max_str_digits] digits
    at most. *)
Definition int (s : string) : result Z :=
  let bad := Raise (ValueError ("invalid literal for int() with base 10: " ++ s)) in
  match drop_underscores false (strip (chars s)) with
  | None => bad
  | Some l =>
      let '(neg, body) := split_sign l in
      match body with
      | [] => bad
      | _ :: _ =>
          if max_str_digits <? Z.of_nat (List.length body) then
            Raise (ValueError "Exceeds the limit (4300 digits) for integer string conversion")
          else
            match number body 0 with
            | Some n => Ok (if neg then - n else n)
            | None => bad
            end
      end
  end.

End PyInt.

(** ** Floats as text: [float(str)] and [str(float)] *)

Module PyFloat.
Import Text.
Local Open Scope list_scope.

Definition float : Type := spec_float.

Definition prec : Z := 53.
Definition emax : Z := 1024.

Definition nan : float := S754_nan.
Definition inf : float := S754_infinity false.
Definition neg_inf : float := S754_infinity true.

(** [x == y] on floats. *)
Definition eqb (x y : float) : bool := SFeqb x y.

Definition is_nan (x : float) : bool :=
  match x with S754_nan => true | _ => false end.

Definition is_inf (x : float) : bool :=
  match x with S754_infinity _ => true | _ => false end.

(** [math.isfinite] *)
Definition is_finite (x : float) : bool := negb (is_nan x) && negb (is_inf x).

(** The float nearest to [num / den] (ties to even), for [num] and [den]
    positive: the quotient is taken with 64 bits or more and the
    remainder is kept as the position of the exact value between two
    consecutive quotients. *)
Definition of_ratio (neg : bool) (num den : Z) : float :=
  let k := Z.max 0 (64 + Z.log2 den - Z.log2 num) in
  let n := num * 2 ^ k in
  let q := n / den in
  let r := n mod den in
  let loc := if r =? 0 then loc_Exact else loc_Inexact (2 * r ?= den) in
  binary_round_aux prec emax neg q (- k) loc.

(** The float nearest to [d * 10 ^ e], for [d >= 0]. *)
Definition of_decimal (neg : bool) (d e : Z) : float :=
  if d =? 0 then S754_zero neg
  else of_ratio neg (d * 10 ^ Z.max e 0) (10 ^ Z.max (- e) 0).

Fixpoint span_digits (l : list ascii) : list ascii * list ascii :=
  match l with
  | c :: l' =>
      if is_digit c then let '(ds, r) := span_digits l' in (c :: ds, r)
      else ([], l)
  | [] => ([], [])
  end.

(** The exponent part of a literal: empty, or [e] or [E], an optional
    sign and one digit or more. *)
Definition exponent (l : list ascii) : option Z :=
  match l with
  | [] => Some 0
  | c :: r =>
      if Ascii.eqb (lower_char c) "e" then
        let '(neg, ds) := PyInt.split_sign r in
        match ds with
        | [] => None
        | _ :: _ =>
            match PyInt.number ds 0 with
            | Some n => Some (if neg then - n else n)
            | None => None
            end
        end
      else None
  end.

(** A decimal literal without sign: digits, an optional point and
    digits, an optional exponent; one digit at least before the
    exponent.  Returns the digits as a whole number and the power of
    ten that scales it. *)
Definition literal (l : list ascii) : option (Z * Z) :=
  let '(ip, r) := span_digits l in
  let '(fp, r') :=
    match r with
    | c :: t => if Ascii.eqb c "." then span_digits t else ([], r)
    | [] => ([], [])
    end in
  match ip ++ fp with
  | [] => None
  | _ :: _ =>
      match PyInt.number (ip ++ fp) 0, exponent r' with
      | Some d, Some e => Some (d, e - Z.of_nat (List.length fp))
      | _, _ => None
      end
  end.

Definition list_eqb (a b : list ascii) : bool :=
  String.eqb (text a) (text b).

(** [float(s)]: blanks around, an optional sign, then [inf], [infinity]
    or [nan] in any case, or a decimal literal. *)
Definition of_str (s : string) : result float :=
  let bad := Raise (ValueError ("could not convert string to float: " ++ s)) in
  match PyInt.drop_underscores false (strip (chars s)) with
  | None => bad
  | Some l =>
      let '(neg, body) := PyInt.split_sign l in
      let word := map lower_char body in
      if list_eqb word (chars "inf") || list_eqb word (chars "infinity")
      then Ok (S754_infinity neg)
      else if list_eqb word (chars "nan") then Ok S754_nan
      else
        match literal body with
        | Some (d, e) => Ok (of_decimal neg d e)
        | None => bad
        end
  end.

(** *** [repr] of a float: the shortest digits that read back *)

(** [10 ^ p <= num / den], for [num] and [den] positive. *)
Definition ge_pow10 (num den p : Z) : bool :=
  if 0 <=? p then den * 10 ^ p <=? num else den <=? num * 10 ^ (- p).

(** The [p] with [10 ^ p <= num / den < 10 ^ (p + 1)]: an estimate from
    the binary logarithms, corrected upwards. *)
Definition floor_log10 (num den : Z) : Z :=
  let est := ((Z.log2 num - Z.log2 den) * 30103) / 100000 - 2 in
  fold_left (fun p i => if ge_pow10 num den (est + i) then est + i else p)
            [1; 2; 3; 4; 5] est.

(** [num / den] rounded to the nearest integer, ties to even. *)
Definition round_half_even (num den : Z) : Z :=
  let q := num / den in
  let r := num mod den in
  match 2 * r ?= den with
  | Lt => q
  | Gt => q + 1
  | Eq => if Z.even q then q else q + 1
  end.

(** The [n] significant digits nearest to [num / den], as a whole
    number [d] and the exponent [e] with [num / den ~ d * 10 ^ e]. *)
Definition nearest_digits (n num den : Z) : Z * Z :=
  let p := floor_log10 num den in
  let s := n - 1 - p in
  let d := round_half_even (num * 10 ^ Z.max s 0) (den * 10 ^ Z.max (- s) 0) in
  if d =? 10 ^ n then (10 ^ (n - 1), p + 1 - (n - 1)) else (d, p - (n - 1)).

(** The first precision from 1 to 17 whose digits read back as [x]
    (17 digits when none before does). *)
Definition shortest_digits (x : float) (m : positive) (e : Z) : Z * Z :=
  let num := Zpos m * 2 ^ Z.max e 0 in
  let den := 2 ^ Z.max (- e) 0 in
  fold_right
    (fun n rest =>
       let '(d, de) := nearest_digits n num den in
       if eqb (of_decimal false d de) (SFabs x) then (d, de) else rest)
    (nearest_digits 17 num den)
    [1; 2; 3; 4; 5; 6; 7; 8; 9; 10; 11; 12; 13; 14; 15; 16].

Fixpoint strip_zeros (fuel : nat) (d e : Z) : Z * Z :=
  match fuel with
  | O => (d, e)
  | S fuel' =>
      if (d mod 10 =? 0) && negb (d =? 0) then strip_zeros fuel' (d / 10) (e + 1)
      else (d, e)
  end.

Definition zeros (n : Z) : list ascii := repeat "0"%char (Z.to_nat n).

(** The layout of [repr]: [decpt] is the position of the point
    relative to the first digit; plain notation when
    [-4 < decpt <= 16], otherwise exponent notation with two exponent
    digits or more. *)
Definition layout (ds : list ascii) (decpt : Z) : list ascii :=
  let n := Z.of_nat (List.length ds) in
  if (decpt <=? -4) || (16 <? decpt) then
    let ex := decpt - 1 in
    let exd := PyInt.digits (Z.abs ex) in
    let exd := if Z.abs ex <? 10 then "0"%char :: exd else exd in
    firstn 1 ds ++
    (match skipn 1 ds with [] => [] | t => "."%char :: t end) ++
    "e"%char :: (if ex <? 0 then "-"%char else "+"%char) :: exd
  else if decpt <=? 0 then
    "0"%char :: "."%char :: zeros (- decpt) ++ ds
  else if n <=? decpt then
    ds ++ zeros (decpt - n) ++ [ "."%char; "0"%char ]
  else
    firstn (Z.to_nat decpt) ds ++ "."%char :: skipn (Z.to_nat decpt) ds.

(** [str(x)], which is [repr(x)]. *)
Definition str (x : float) : string :=
  match x with
  | S754_nan => "nan"
  | S754_infinity false => "inf"
  | S754_infinity true => "-inf"
  | S754_zero false => "0.0"
  | S754_zero true => "-0.0"
  | S754_finite s m e =>
      let '(d0, e0) := shortest_digits x m e in
      let '(d, de) := strip_zeros 17 d0 e0 in
      let ds := PyInt.digits d in
      let body := layout ds (de + Z.of_nat (List.length ds)) in
      text (if s then "-"%char :: body else body)
  end.

End PyFloat.

(** ** Patterns of [Series.str.contains]

    [str.contains(pat, case=False)] reads [pat] as a regular expression
    (its [regex] parameter is left at its default, [True]) and searches
    it in each element, ignoring case.  The patterns made of ordinary
    characters, of the dot and of escaped special characters are
    interpreted here; every other pattern goes to the regular-expression
    engine, which the application takes as it is. *)

Module Re.
Import Text.
Local Open Scope list_scope.

Inductive atom : Type :=
| Chr (c : ascii)
| AnyChr.

Definition is_special (c : ascii) : bool :=
  existsb (Ascii.eqb c) (chars ".^$*+?{}[]\|()").

(** The atoms of a pattern of the interpreted fragment. *)
Fixpoint atoms (l : list ascii) : option (list atom) :=
  match l with
  | [] => Some []
  | c :: l' =>
      if Ascii.eqb c "\" then
        match l' with
        | d :: l'' =>
            if is_special d then option_map (cons (Chr d)) (atoms l'') else None
        | [] => None
        end
      else if Ascii.eqb c "." then option_map (cons AnyChr) (atoms l')
      else if is_special c then None
      else option_map (cons (Chr c)) (atoms l')
  end.

(** One atom against one character of ASCII text, ignoring case; the
    dot takes any character but the line feed. *)
Definition atom_matches (a : atom) (c : ascii) : bool :=
  match a with
  | Chr x => Ascii.eqb (lower_char x) (lower_char c)
  | AnyChr => negb (Ascii.eqb c (ascii_of_nat 10))
  end.

Fixpoint match_here (p : list atom) (l : list ascii) : bool :=
  match p, l with
  | [], _ => true
  | a :: p', c :: l' => atom_matches a c && match_here p' l'
  | _ :: _, [] => false
  end.

(** [re.search]: a match at some offset. *)
Fixpoint search_atoms (p : list atom) (l : list ascii) : bool :=
  match_here p l ||
  match l with
  | [] => false
  | _ :: l' => search_atoms p l'
  end.

End Re.

(** ** Values, columns and tables *)

Inductive dtype : Type := Int64 | Float64 | Bool | Object.

(** A cell of a table or of a response row.  A missing cell is the
    float NaN, also in a column of text; [VNone] is Python's [None]. *)
Inductive value : Type :=
| VInt (z : Z)
| VFloat (f : PyFloat.float)
| VStr (s : string)
| VBool (b : bool)
| VNone.

Definition row : Type := list value.

Record DataFrame : Type := {
  columns : list (string * dtype);
  rows : list row
}.

(** [len(df)] *)
Definition len {A : Type} (l : list A) : Z := Z.of_nat (List.length l).

(** What a column of each dtype holds: integers of 64 bits, floats,
    truth values; a column of dtype [object] holds any Python object
    (texts, NaN for a missing cell, truth values next to NaN, ...). *)
Definition cell_ok (d : dtype) (v : value) : bool :=
  match d, v with
  | Int64, VInt z => (- 2 ^ 63 <=? z) && (z <? 2 ^ 63)
  | Float64, VFloat f => valid_binary PyFloat.prec PyFloat.emax f
  | Bool, VBool _ => true
  | Object, _ => true
  | _, _ => false
  end.

Fixpoint row_ok (cols : list (string * dtype)) (r : row) : bool :=
  match cols, r with
  | [], [] => true
  | (_, d) :: cols', v :: r' => cell_ok d v && row_ok cols' r'
  | _, _ => false
  end.

(** The invariant of a table: column labels are distinct and every row
    has one cell per column, of the kind that the dtype of the column
    admits. *)
Definition well_formed (df : DataFrame) : Prop :=
  NoDup (map fst (columns df)) /\
  forall r, In r (rows df) -> row_ok (columns df) r = true.

(** Position and dtype of the column labelled [key]; [None] when [key]
    is not in [df.columns]. *)
Fixpoint find_column (cols : list (string * dtype)) (key : string) : option (nat * dtype) :=
  match cols with
  | [] => None
  | (name, d) :: cols' =>
      if String.eqb name key then Some (O, d)
      else
        match find_column cols' key with
        | Some (i, d') => Some (S i, d')
        | None => None
        end
  end.

(** The cell of a row at a column position. *)
Definition cell (i : nat) (r : row) : value := nth i r VNone.

(** [str(v)]; it is also what [astype(str)] puts in place of [v]. *)
Definition str_value (v : value) : string :=
  match v with
  | VInt z => PyInt.str z
  | VFloat f => PyFloat.str f
  | VStr s => s
  | VBool true => "True"
  | VBool false => "False"
  | VNone => "None"
  end.

(** Elementwise [==] of a column against a scalar.  The scalar comes out
    of [_cast_type] for the dtype of that same column, so a number only
    meets a number of its own kind; a cell and a scalar of different
    kinds are unequal. *)
Definition value_eqb (x y : value) : bool :=
  match x, y with
  | VInt a, VInt b => a =? b
  | VFloat a, VFloat b => PyFloat.eqb a b
  | VStr a, VStr b => String.eqb a b
  | VBool a, VBool b => Bool.eqb a b
  | _, _ => false
  end.

(** [rows[mask]]: the rows whose entry in the mask is [True]. *)
Fixpoint boolean_index {A : Type} (l : list A) (mask : list bool) : list A :=
  match l, mask with
  | x :: l', b :: mask' =>
      if b then x :: boolean_index l' mask' else boolean_index l' mask'
  | _, _ => []
  end.

(** A bound of a slice, as Python normalises it for a sequence of
    length [n]. *)
Definition slice_bound (n i : Z) : Z :=
  if i <? 0 then Z.max 0 (i + n) else Z.min i n.

(** [l.iloc[start:stop]] *)
Definition iloc {A : Type} (l : list A) (start stop : Z) : list A :=
  let a := slice_bound (len l) start in
  let b := slice_bound (len l) stop in
  firstn (Z.to_nat (b - a)) (skipn (Z.to_nat a) l).

(** ** JSON content and [JSONResponse] *)

Inductive json : Type :=
| JNull
| JBool (b : bool)
| JInt (z : Z)
| JFloat (f : PyFloat.float)
| JStr (s : string)
| JList (items : list json)
| JDict (fields : list (string * json)).

(** The encoder runs with [allow_nan=False]: a NaN or an infinity
    anywhere in the content is refused. *)
Fixpoint compliant (j : json) : bool :=
  match j with
  | JFloat f => PyFloat.is_finite f
  | JList items => forallb compliant items
  | JDict fields => forallb (fun kv => compliant (snd kv)) fields
  | _ => true
  end.

Definition JSONResponse (content : json) : result json :=
  if compliant content then Ok content
  else Raise (ValueError "Out of range float values are not JSON compliant").

Definition json_of_value (v : value) : json :=
  match v with
  | VInt z => JInt z
  | VFloat f => JFloat f
  | VStr s => JStr s
  | VBool b => JBool b
  | VNone => JNull
  end.

(** [df.to_dict(orient='records')]: one mapping from column label to
    cell per row. *)
Definition record (cols : list (string * dtype)) (r : row) : json :=
  JDict (combine (map fst cols) (map json_of_value r)).

Definition to_dict_records (cols : list (string * dtype)) (rs : list row) : json :=
  JList (map (record cols) rs).

(** The field [name] of a JSON object. *)
Definition field (name : string) (j : json) : option json :=
  match j with
  | JDict fields =>
      option_map snd (find (fun kv => String.eqb (fst kv) name) fields)
  | _ => None
  end.

(** ** Query parameters as a [dict] *)

Definition params : Type := list (string * string).

Fixpoint dict_set (d : params) (k v : string) : params :=
  match d with
  | [] => [(k, v)]
  | (k', v') :: d' =>
      if String.eqb k' k then (k', v) :: d' else (k', v') :: dict_set d' k v
  end.

(** [dict(request.query_params)]: keys in the order of their first
    occurrence, each with its last value. *)
Definition dict (items : params) : params :=
  fold_left (fun d kv => dict_set d (fst kv) (snd kv)) items [].

(** [d.pop(k, None)] *)
Fixpoint pop (k : string) (d : params) : params :=
  match d with
  | [] => []
  | (k', v') :: d' => if String.eqb k' k then d' else (k', v') :: pop k d'
  end.

(** ** The application *)

(** [app.state]: the table of the last successful upload, if any. *)
Record State : Type := { state_df : option DataFrame }.

(** The uploaded file: its name and what [await file.read()] gives. *)
Record UploadFile : Type := {
  filename : string;
  read : result string
}.

Definition is_integer_dtype (d : dtype) : bool :=
  match d with Int64 => true | _ => false end.

Definition is_float_dtype (d : dtype) : bool :=
  match d with Float64 => true | _ => false end.

(** [try: body except ValueError: pass], where [body] either returns
    from the function ([Some v]) or falls through ([None]). *)
Definition except_ValueError {A : Type} (body : result (option A)) : result (option A) :=
  match body with
  | Raise (ValueError _) => Ok None
  | r => r
  end.

(** [_cast_type] (lines 107-118); [raw] is its parameter [value]. *)
Definition _cast_type (d : dtype) (raw : string) : result value :=
  returned <- except_ValueError
    (if is_integer_dtype d then
       z <- PyInt.int raw ;; Ok (Some (VInt z))
     else if is_float_dtype d then
       f <- PyFloat.of_str raw ;; Ok (Some (VFloat f))
     else Ok None) ;;
  match returned with
  | Some v => Ok v
  | None => Ok (VStr raw)
  end.

(** [_clean_df] (lines 33-37): [replace] maps the cells equal to NaN, to
    infinity or to minus infinity to [None]. *)
Definition clean_value (v : value) : value :=
  match v with
  | VFloat f => if PyFloat.is_nan f || PyFloat.is_inf f then VNone else v
  | _ => v
  end.

Definition _clean_df (rs : list row) : list row := map (map clean_value) rs.

(** The loop of lines 56-58 over the remaining parameters: a key that
    labels a column keeps the rows whose cell in that column equals the
    cast value. *)
Fixpoint apply_filters (cols : list (string * dtype)) (ps : params)
    (results : list row) : result (list row) :=
  match ps with
  | [] => Ok results
  | (key, raw) :: ps' =>
      match find_column cols key with
      | Some (i, d) =>
          v <- _cast_type d raw ;;
          apply_filters cols ps'
            (boolean_index results (map (fun r => value_eqb (cell i r) v) results))
      | None => apply_filters cols ps' results
      end
  end.

(** Lines 53-55: the parameters left once [skip] and [limit] are popped. *)
Definition filter_params (query_params : params) : params :=
  pop "limit" (pop "skip" (dict query_params)).

(** Lines 49-58: the rows selected by the filters. *)
Definition records_results (df : DataFrame) (query_params : params) : result (list row) :=
  apply_filters (columns df) (filter_params query_params) (rows df).

Definition no_data : exn := HTTPException 404 "No CSV data uploaded yet.".

(** Lines 60-71 and 94-105: page, clean, respond. *)
Definition page_response (cols : list (string * dtype)) (results : list row)
    (skip limit : Z) : result json :=
  let paged := iloc results skip (skip + limit) in
  let paged_clean := _clean_df paged in
  JSONResponse (JDict [
    ("total", JInt (len results));
    ("skip", JInt skip);
    ("limit", JInt limit);
    ("data", to_dict_records cols paged_clean) ]).

(** [get_records] (lines 39-71). *)
Definition get_records (st : State) (query_params : params) (skip limit : Z) : result json :=
  match state_df st with
  | None => Raise no_data
  | Some df =>
      results <- records_results df query_params ;;
      page_response (columns df) results skip limit
  end.

Section Search.

(** [re.compile(pat, re.IGNORECASE)] on a pattern outside the
    interpreted fragment: the matcher of [search], or [None] when the
    pattern is rejected with [re.error]. *)
Variable re_compile : string -> option (string -> bool).

(** The matcher of a pattern. *)
Definition compile (pat : string) : result (string -> bool) :=
  match Re.atoms (Text.chars pat) with
  | Some p => Ok (fun s => Re.search_atoms p (Text.chars s))
  | None =>
      match re_compile pat with
      | Some m => Ok m
      | None => Raise (ReError ("invalid pattern: " ++ pat))
      end
  end.

(** [series.astype(str).str.contains(q, case=False, na=False)]: the
    pattern is compiled once, then searched in the text of every cell. *)
Definition str_contains (series : list value) (q : string) : result (list bool) :=
  m <- compile q ;; Ok (map (fun v => m (str_value v)) series).

(** [select_dtypes(include=['object', 'string'])]: the positions of the
    columns of text. *)
Fixpoint select_dtypes (cols : list (string * dtype)) (i : nat) : list nat :=
  match cols with
  | [] => []
  | (_, Object) :: cols' => i :: select_dtypes cols' (S i)
  | _ :: cols' => select_dtypes cols' (S i)
  end.

(** [mask |= ...] between two columns of booleans. *)
Fixpoint mask_or (a b : list bool) : list bool :=
  match a, b with
  | x :: a', y :: b' => (x || y) :: mask_or a' b'
  | _, _ => []
  end.

(** Lines 89-91; the initial [False] is spread over the rows. *)
Fixpoint search_mask (str_cols : list nat) (rs : list row) (q : string)
    (mask : list bool) : result (list bool) :=
  match str_cols with
  | [] => Ok mask
  | col :: str_cols' =>
      m <- str_contains (map (cell col) rs) q ;;
      search_mask str_cols' rs q (mask_or mask m)
  end.

(** [search] (lines 73-105). *)
Definition search (st : State) (q : string) (skip limit : Z) : result json :=
  match state_df st with
  | None => Raise no_data
  | Some df =>
      let str_cols := select_dtypes (columns df) O in
      if (List.length str_cols =? 0)%nat then
        JSONResponse (JDict [ ("total", JInt 0); ("data", JList []) ])
      else
        mask <- search_mask str_cols (rows df) q
                  (repeat false (List.length (rows df))) ;;
        let results := boolean_index (rows df) mask in
        page_response (columns df) results skip limit
  end.

(** [pd.read_csv] on the bytes of the upload: the table, or the parser's
    exception. *)
Variable read_csv : string -> result DataFrame.

(** [upload_csv] (lines 18-31): the response and the state it leaves. *)
Definition upload_csv (st : State) (file : UploadFile) : result json * State :=
  if negb (Text.endswith (filename file) ".csv") then
    (Raise (HTTPException 400 "Only CSV files are supported."), st)
  else
    match (contents <- read file ;; read_csv contents) with
    | Ok df =>
        (Ok (JDict [
           ("message", JStr ("CSV file '" ++ filename file ++ "' uploaded successfully."));
           ("rows", JInt (len (rows df))) ]),
         {| state_df := Some df |})
    | Raise e =>
        (Raise (HTTPException 500 ("Failed to read CSV: " ++ exn_str e)), st)
    end.

End Search.

(** ** Reference definitions

    What the handlers are compared with. *)

(** What [_cast_type] returns, read off the column dtype. *)
Definition cast_value (d : dtype) (raw : string) : value :=
  match d with
  | Int64 =>
      match PyInt.int raw with Ok z => VInt z | Raise _ => VStr raw end
  | Float64 =>
      match PyFloat.of_str raw with Ok f => VFloat f | Raise _ => VStr raw end
  | Bool | Object => VStr raw
  end.

(** A filter seen from one row: the key labels no column, or the cell of
    the row in that column equals the cast value. *)
Definition satisfies (cols : list (string * dtype)) (r : row) (kv : string * string) : bool :=
  match find_column cols (fst kv) with
  | Some (i, d) => value_eqb (cell i r) (cast_value d (snd kv))
  | None => true
  end.

(** The parameters whose key is not [k]. *)
Definition key_is_not (k : string) (kv : string * string) : bool :=
  negb (String.eqb (fst kv) k).

(** The parameters that are not pagination offsets. *)
Definition not_pagination (kv : string * string) : bool :=
  key_is_not "skip" kv && key_is_not "limit" kv.

(** The parameters whose key labels a column. *)
Definition names_column (cols : list (string * dtype)) (kv : string * string) : bool :=
  match find_column cols (fst kv) with Some _ => true | None => false end.

(** The rows that [search] selects (lines 84-92); none when the table
    has no column of text. *)
Definition search_results (re_compile : string -> option (string -> bool))
    (df : DataFrame) (q : string) : result (list row) :=
  match select_dtypes (columns df) O with
  | [] => Ok []
  | str_cols =>
      mask <- search_mask re_compile str_cols (rows df) q
                (repeat false (List.length (rows df))) ;;
      Ok (boolean_index (rows df) mask)
  end.

(** A cell as the response must show it: [null] for NaN and for the
    infinities, the cell itself otherwise. *)
Definition sanitized (v : value) : json :=
  match v with
  | VFloat S754_nan => JNull
  | VFloat (S754_infinity _) => JNull
  | _ => json_of_value v
  end.

Definition sanitized_record (cols : list (string * dtype)) (r : row) : json :=
  JDict (combine (map fst cols) (map sanitized r)).


(** Lower-cased containment, the reading of a query as plain text. *)
Definition contains_ci (s q : string) : bool :=
  Text.contains (Text.lower s) (Text.lower q).

(** ** Sample tables and collaborators *)

(** [name,age / Alice,30 / Bob,25] *)
Definition people : DataFrame := {|
  columns := [("name", Object); ("age", Int64)];
  rows := [ [VStr "Alice"; VInt 30]; [VStr "Bob"; VInt 25] ]
|}.

(** [name,score / Alice,1.5 / ,2.5 / Carol,] : one name and one score
    are missing. *)
Definition scores : DataFrame := {|
  columns := [("name", Object); ("score", Float64)];
  rows := [ [VStr "Alice"; VFloat (S754_finite false 6755399441055744 (-52))];
            [VFloat S754_nan; VFloat (S754_finite false 5629499534213120 (-51))];
            [VStr "Carol"; VFloat S754_nan] ]
|}.

(** [id,skip / 1,7 / 2,8] : a table with a column labelled [skip]. *)
Definition ledger : DataFrame := {|
  columns := [("id", Int64); ("skip", Int64)];
  rows := [ [VInt 1; VInt 7]; [VInt 2; VInt 8] ]
|}.

(** An engine that rejects every pattern outside the interpreted
    fragment. *)
Definition strict_engine : string -> option (string -> bool) := fun _ => None.

(** A parser that finds no column in the bytes it is given. *)
Definition empty_parser : string -> result DataFrame :=
  fun _ => Raise (Exception "No columns to parse from file").

(** A parser that reads every upload as the table [people]. *)
Definition people_parser : string -> result DataFrame := fun _ => Ok people.

(** ** Further reference definitions *)

(** The value that [dict] keeps for a key: that of its last occurrence
    in the query. *)
Definition last_value (k : string) (items : params) : option string :=
  fold_left (fun acc kv => if String.eqb (fst kv) k then Some (snd kv) else acc)
            items None.

(** [d.get(k)] *)
Definition dict_get (k : string) (d : params) : option string :=
  option_map snd (find (fun kv => String.eqb (fst kv) k) d).

(** ASCII text: every character is below 128. *)
Definition ascii_text (s : string) : bool :=
  forallb (fun c => Text.code c <? 128) (Text.chars s).

(** Every cell of every column of text is an ASCII text; none is
    missing. *)
Definition text_cells_ascii (df : DataFrame) : Prop :=
  forall r c,
    In r (rows df) -> In c (select_dtypes (columns df) O) ->
    exists s, cell c r = VStr s /\ ascii_text s = true.

(** The text of a cell, lower-cased, contains the lower-cased query. *)
Definition cell_contains (q : string) (v : value) : bool :=
  match v with
  | VStr s => Text.contains (Text.lower s) (Text.lower q)
  | _ => false
  end.

(** A query without any character that is special in a pattern. *)
Definition plain (q : string) : bool :=
  forallb (fun c => negb (Re.is_special c)) (Text.chars q).

(** The rows of the field [data] of a response. *)
Definition data_rows (content : json) : list json :=
  match field "data" content with
  | Some (JList items) => items
  | _ => []
  end.

(** A cell that is neither NaN nor an infinity. *)
Definition finite_value (v : value) : bool :=
  match v with
  | VFloat f => PyFloat.is_finite f
  | _ => true
  end.

(** A pattern that the interpreted fragment leaves to the engine. *)
Definition open_group : string := "(".

(** An atom with its character lower-cased. *)
Definition lower_atom (a : Re.atom) : Re.atom :=
  match a with
  | Re.Chr c => Re.Chr (Text.lower_char c)
  | Re.AnyChr => Re.AnyChr
  end.

(** The field [total] of a response and the number of its rows, or the
    exception raised. *)
Definition outcome (response : result json) : result (option json * nat) :=
  match response with
  | Ok content => Ok (field "total" content, List.length (data_rows content))
  | Raise e => Raise e
  end.

(** [name,age / Alice,31 / Bob,26] : the table [people] with other
    ages. *)
Definition people_older : DataFrame := {|
  columns := [("name", Object); ("age", Int64)];
  rows := [ [VStr "Alice"; VInt 31]; [VStr "Bob"; VInt 26] ]
|}.

(** * Properties *)

(** ** Text and numbers *)

Module TextFacts.
Import Text.
Local Open Scope list_scope.

Lemma chars_text (l : list ascii) : chars (text l) = l.
Proof. apply list_ascii_of_string_of_list_ascii. Qed.

Lemma text_chars (s : string) : text (chars s) = s.
Proof. apply string_of_list_ascii_of_string. Qed.

Lemma lstrip_head (c : ascii) (l : list ascii) :
  is_space c = false -> lstrip (c :: l) = c :: l.
Proof. intros H. simpl. now rewrite H. Qed.

(** Text without blanks is left as it is by [strip]. *)
Lemma strip_no_space (l : list ascii) :
  Forall (fun c => is_space c = false) l -> strip l = l.
Proof.
  intros H. unfold strip.
  assert (L : forall k, Forall (fun c => is_space c = false) k -> lstrip k = k).
  { intros k Hk. destruct Hk as [|c k Hc Hk]; [reflexivity|now apply lstrip_head]. }
  rewrite (L l H). rewrite (L (rev l)) by now apply Forall_rev.
  apply rev_involutive.
Qed.

Lemma digit_code (c : ascii) : is_digit c = true -> 48 <= code c <= 57.
Proof. unfold is_digit. intros H. apply andb_prop in H. lia. Qed.

Lemma digit_not_space (c : ascii) : is_digit c = true -> is_space c = false.
Proof. intros H. apply digit_code in H. unfold is_space. lia. Qed.

Lemma digit_not (c d : ascii) :
  is_digit c = true -> is_digit d = false -> Ascii.eqb c d = false.
Proof.
  intros Hc Hd. destruct (Ascii.eqb_spec c d) as [->|]; [congruence|reflexivity].
Qed.

End TextFacts.

Module PyIntFacts.
Import Text PyInt TextFacts.
Local Open Scope list_scope.

Lemma digit_char_ok (d : Z) :
  0 <= d < 10 -> is_digit (digit_char d) = true /\ digit_val (digit_char d) = d.
Proof.
  intros H.
  assert (E : d = 0 \/ d = 1 \/ d = 2 \/ d = 3 \/ d = 4 \/ d = 5 \/ d = 6 \/
              d = 7 \/ d = 8 \/ d = 9) by lia.
  repeat (destruct E as [->|E]; [split; reflexivity|]). subst; split; reflexivity.
Qed.

Lemma number_snoc (l : list ascii) (c : ascii) (acc v : Z) :
  number l acc = Some v -> is_digit c = true ->
  number (l ++ [c]) acc = Some (10 * v + digit_val c).
Proof.
  revert acc. induction l as [|a l IH]; intros acc Hl Hc; simpl in *.
  - injection Hl as <-. now rewrite Hc.
  - destruct (is_digit a); [now apply IH|discriminate].
Qed.

Lemma rdigits_digits (fuel : nat) (n : Z) :
  0 <= n -> Forall (fun c => is_digit c = true) (rdigits fuel n).
Proof.
  revert n. induction fuel as [|fuel IH]; intros n Hn; simpl; [constructor|].
  constructor.
  - apply digit_char_ok. apply Z.mod_pos_bound. lia.
  - destruct (n <? 10); [constructor|]. apply IH. apply Z.div_pos; lia.
Qed.

Lemma number_rdigits (fuel : nat) (n : Z) :
  0 <= n < 2 ^ Z.of_nat fuel ->
  number (rev (rdigits fuel n)) 0 = Some n.
Proof.
  revert n. induction fuel as [|fuel IH]; intros n Hn.
  - simpl in Hn. assert (n = 0) as -> by lia. reflexivity.
  - cbn [rdigits rev].
    assert (Hm : 0 <= n mod 10 < 10) by (apply Z.mod_pos_bound; lia).
    destruct (digit_char_ok _ Hm) as [Hd Hv].
    destruct (n <? 10) eqn:E.
    + apply Z.ltb_lt in E. simpl. rewrite Hd, Hv.
      rewrite Z.mod_small by lia. reflexivity.
    + apply Z.ltb_ge in E.
      rewrite (number_snoc _ _ 0 (n / 10)); [|apply IH|exact Hd].
      * rewrite Hv. f_equal. pose proof (Z.div_mod n 10). lia.
      * rewrite Nat2Z.inj_succ, Z.pow_succ_r in Hn by lia.
        split; [apply Z.div_pos; lia|].
        apply Z.div_lt_upper_bound; lia.
Qed.

Lemma digits_ok (n : Z) :
  0 <= n ->
  Forall (fun c => is_digit c = true) (digits n) /\
  number (digits n) 0 = Some n /\ digits n <> [].
Proof.
  intros Hn. unfold digits. split; [|split].
  - apply Forall_rev. now apply rdigits_digits.
  - apply number_rdigits. split; [lia|].
    rewrite Nat2Z.inj_succ, Z2Nat.id by apply Z.log2_nonneg.
    destruct (Z.eq_dec n 0) as [->|]; [reflexivity|].
    apply Z.log2_spec. lia.
  - simpl. intros H. apply (f_equal (@List.length ascii)) in H.
    rewrite length_app in H. simpl in H. lia.
Qed.

Lemma drop_underscores_digits (l : list ascii) (b : bool) :
  Forall (fun c => is_digit c = true) l -> drop_underscores b l = Some l.
Proof.
  intros H. revert b. induction H as [|c l Hc Hl IH]; intros b; simpl; [reflexivity|].
  rewrite (digit_not c "_" Hc eq_refl). now rewrite IH.
Qed.

Lemma rdigits_length (fuel : nat) (n k : Z) :
  1 <= k -> 0 <= n < 10 ^ k ->
  Z.of_nat (List.length (rdigits fuel n)) <= k.
Proof.
  revert n k. induction fuel as [|fuel IH]; intros n k Hk Hn; simpl; [lia|].
  destruct (n <? 10) eqn:E; simpl; [lia|].
  apply Z.ltb_ge in E.
  assert (K : 2 <= k).
  { destruct (Z.eq_dec k 1) as [->|]; [|lia]. change (10 ^ 1) with 10 in Hn. lia. }
  assert (P : 10 ^ k = 10 * 10 ^ (k - 1)).
  { rewrite <- Z.pow_succ_r by lia. f_equal. lia. }
  specialize (IH (n / 10) (k - 1)).
  assert (0 <= n / 10 < 10 ^ (k - 1)).
  { split; [apply Z.div_pos; lia|]. apply Z.div_lt_upper_bound; lia. }
  lia.
Qed.

Lemma digits_length (n : Z) :
  0 <= n < 10 ^ max_str_digits ->
  (max_str_digits <? Z.of_nat (List.length (digits n))) = false.
Proof.
  intros Hn. apply Z.ltb_ge. unfold digits. rewrite length_rev.
  apply rdigits_length; [unfold max_str_digits; lia|exact Hn].
Qed.

(** [int] reads back what [str] writes, within the limit of digits. *)
Lemma int_str (z : Z) :
  Z.abs z < 10 ^ max_str_digits -> int (str z) = Ok z.
Proof.
  intros Hz. unfold int, str. rewrite chars_text.
  destruct (z <? 0) eqn:E.
  - apply Z.ltb_lt in E.
    destruct (digits_ok (- z)) as (Hd & Hn & Hne); [lia|].
    assert (Hl := digits_length (- z)).
    rewrite strip_no_space.
    2:{ constructor; [reflexivity|].
        eapply Forall_impl; [|exact Hd]. intros c. apply digit_not_space. }
    cbn [drop_underscores]. change (Ascii.eqb "-" "_") with false. cbv iota.
    rewrite (drop_underscores_digits _ _ Hd). cbn [split_sign].
    change (Ascii.eqb "-" "-") with true. cbv iota.
    destruct (digits (- z)) as [|c l] eqn:D; [congruence|].
    rewrite Hl by lia. rewrite Hn. f_equal. lia.
  - apply Z.ltb_ge in E.
    destruct (digits_ok z E) as (Hd & Hn & Hne).
    assert (Hl := digits_length z).
    rewrite strip_no_space.
    2:{ eapply Forall_impl; [|exact Hd]. intros c. apply digit_not_space. }
    rewrite (drop_underscores_digits _ _ Hd).
    destruct (digits z) as [|c l] eqn:D; [congruence|].
    inversion Hd as [|? ? Hc Hl']; subst.
    unfold split_sign.
    rewrite (digit_not c "-" Hc eq_refl), (digit_not c "+" Hc eq_refl).
    rewrite Hl by lia. now rewrite Hn.
Qed.

(** [int] raises nothing but [ValueError]. *)
Lemma int_cases (s : string) :
  (exists z, int s = Ok z) \/ (exists msg, int s = Raise (ValueError msg)).
Proof.
  unfold int.
  destruct (drop_underscores false (strip (chars s))) as [l|]; [|right; eauto].
  destruct (split_sign l) as [neg body].
  destruct body; [right; eauto|].
  destruct (max_str_digits <? _); [right; eauto|].
  destruct (number _ 0); [left|right]; eauto.
Qed.

End PyIntFacts.

Module PyFloatFacts.
Import Text PyFloat.

(** [float] raises nothing but [ValueError]. *)
Lemma of_str_cases (s : string) :
  (exists f, of_str s = Ok f) \/ (exists msg, of_str s = Raise (ValueError msg)).
Proof.
  unfold of_str.
  destruct (PyInt.drop_underscores false (strip (chars s))) as [l|]; [|right; eauto].
  destruct (PyInt.split_sign l) as [neg body].
  destruct (_ || _); [left; eauto|].
  destruct (list_eqb _ _); [left; eauto|].
  destruct (literal body) as [[d e]|]; [left|right]; eauto.
Qed.

End PyFloatFacts.

(** ** Value coercion *)

Lemma cast_type_total (d : dtype) (raw : string) :
  _cast_type d raw = Ok (cast_value d raw).
Proof.
  unfold _cast_type, cast_value. destruct d; cbn; try reflexivity.
  - destruct (PyIntFacts.int_cases raw) as [[z ->]|[msg ->]]; reflexivity.
  - destruct (PyFloatFacts.of_str_cases raw) as [[f ->]|[msg ->]]; reflexivity.
Qed.

(** ** Selection *)

Section Lists.
Context {A : Type}.
Local Open Scope list_scope.

Lemma boolean_index_map (f : A -> bool) (l : list A) :
  boolean_index l (map f l) = filter f l.
Proof.
  induction l as [|x l IH]; simpl; [reflexivity|].
  rewrite IH. reflexivity.
Qed.

Lemma filter_filter (f g : A -> bool) (l : list A) :
  filter g (filter f l) = filter (fun x => f x && g x) l.
Proof.
  induction l as [|x l IH]; simpl; [reflexivity|].
  destruct (f x); simpl; [destruct (g x)|]; now rewrite IH.
Qed.

Lemma filter_true (f : A -> bool) (l : list A) :
  (forall x, In x l -> f x = true) -> filter f l = l.
Proof.
  induction l as [|x l IH]; intros H; simpl; [reflexivity|].
  rewrite (H x) by now left. f_equal. apply IH. intros y Hy. apply H. now right.
Qed.

Lemma len_nonneg (l : list A) : 0 <= len l.
Proof. unfold len. lia. Qed.

(** A page has [min(limit, max(0, total - skip))] rows. *)
Lemma iloc_length (l : list A) (skip limit : Z) :
  0 <= skip -> 0 <= limit ->
  len (iloc l skip (skip + limit)) = Z.min limit (Z.max 0 (len l - skip)).
Proof.
  intros Hs Hl. unfold iloc, slice_bound, len.
  destruct (skip <? 0) eqn:E1; [apply Z.ltb_lt in E1; lia|].
  destruct (skip + limit <? 0) eqn:E2; [apply Z.ltb_lt in E2; lia|].
  rewrite length_firstn, length_skipn. lia.
Qed.

Lemma iloc_nil (start stop : Z) : iloc (@nil A) start stop = [].
Proof. unfold iloc. rewrite skipn_nil. apply firstn_nil. Qed.

(** A page is a run of consecutive rows of the selection. *)
Lemma iloc_incl (l : list A) (start stop : Z) (x : A) :
  In x (iloc l start stop) -> In x l.
Proof.
  unfold iloc. intros H.
  set (a := Z.to_nat (slice_bound (len l) start)) in *.
  set (n := Z.to_nat (slice_bound (len l) stop - slice_bound (len l) start)) in *.
  rewrite <- (firstn_skipn a l). apply in_or_app. right.
  rewrite <- (firstn_skipn n (skipn a l)). apply in_or_app. now left.
Qed.

End Lists.

Lemma apply_filters_filter (cols : list (string * dtype)) (ps : params) (results : list row) :
  apply_filters cols ps results =
  Ok (filter (fun r => forallb (satisfies cols r) ps) results).
Proof.
  revert results. induction ps as [|[key raw] ps IH]; intros results.
  - simpl. now rewrite filter_true.
  - cbn [apply_filters forallb]. unfold satisfies at 1. cbn [fst snd].
    destruct (find_column cols key) as [[i d]|] eqn:E.
    + rewrite cast_type_total. cbn [bind]. rewrite IH, boolean_index_map.
      rewrite filter_filter. reflexivity.
    + rewrite IH. reflexivity.
Qed.

(** ** Parameters *)

Section Dict.
Local Open Scope list_scope.

Lemma pop_dict_set (k k' v : string) (d : params) :
  pop k (dict_set d k' v) =
  if String.eqb k' k then pop k d else dict_set (pop k d) k' v.
Proof.
  induction d as [|[k0 v0] d IH]; simpl.
  - destruct (String.eqb k' k); reflexivity.
  - destruct (String.eqb_spec k0 k') as [->|N]; simpl.
    + destruct (String.eqb_spec k' k) as [->|N']; simpl.
      * reflexivity.
      * now rewrite String.eqb_refl.
    + destruct (String.eqb_spec k0 k) as [->|N'].
      * destruct (String.eqb_spec k' k) as [->|N'']; [congruence|reflexivity].
      * rewrite IH. destruct (String.eqb_spec k' k) as [->|N'']; simpl; [reflexivity|].
        destruct (String.eqb_spec k0 k'); [congruence|reflexivity].
Qed.

Lemma pop_fold (k : string) (items d : params) :
  pop k (fold_left (fun d kv => dict_set d (fst kv) (snd kv)) items d) =
  fold_left (fun d kv => dict_set d (fst kv) (snd kv))
            (filter (key_is_not k) items) (pop k d).
Proof.
  revert d. induction items as [|[k' v] items IH]; intros d; simpl; [reflexivity|].
  rewrite IH, pop_dict_set. unfold key_is_not at 2. cbn [fst].
  destruct (String.eqb k' k); reflexivity.
Qed.

(** Popping a key of the [dict] amounts to dropping every parameter of
    that name from the query. *)
Lemma pop_dict (k : string) (items : params) :
  pop k (dict items) = dict (filter (key_is_not k) items).
Proof. unfold dict. now rewrite pop_fold. Qed.

Lemma dict_snoc (items : params) (k v : string) :
  dict (items ++ [(k, v)]) = dict_set (dict items) k v.
Proof. unfold dict. now rewrite fold_left_app. Qed.

Lemma forallb_dict_set (P : string * string -> bool) (d : params) (k v : string) :
  (forall v', P (k, v') = true) ->
  forallb P (dict_set d k v) = forallb P d.
Proof.
  intros H. induction d as [|[k0 v0] d IH]; simpl.
  - now rewrite H.
  - destruct (String.eqb_spec k0 k) as [->|N]; simpl.
    + now rewrite !H.
    + now rewrite IH.
Qed.

End Dict.

Lemma filter_params_spec (query_params : params) :
  filter_params query_params = dict (filter not_pagination query_params).
Proof.
  unfold filter_params. rewrite !pop_dict, filter_filter. reflexivity.
Qed.

(** ** Responses *)

Lemma compliant_clean (v : value) : compliant (json_of_value (clean_value v)) = true.
Proof.
  destruct v as [z|f|s|b|]; try reflexivity.
  unfold clean_value. destruct (PyFloat.is_nan f || PyFloat.is_inf f) eqn:E.
  - reflexivity.
  - apply orb_false_elim in E. simpl. unfold PyFloat.is_finite.
    destruct E as [-> ->]. reflexivity.
Qed.

Lemma compliant_combine (names : list string) (js : list json) :
  forallb compliant js = true ->
  forallb (fun kv : string * json => compliant (snd kv)) (combine names js) = true.
Proof.
  revert js. induction names as [|n names IH]; intros [|j js] H; simpl in *;
    try reflexivity.
  apply andb_prop in H. destruct H as [-> H]. now apply IH.
Qed.

Lemma compliant_records (cols : list (string * dtype)) (rs : list row) :
  compliant (to_dict_records cols (_clean_df rs)) = true.
Proof.
  unfold to_dict_records, _clean_df. cbn [compliant].
  apply forallb_forall. intros j Hj.
  apply in_map_iff in Hj. destruct Hj as (r & <- & Hr).
  apply in_map_iff in Hr. destruct Hr as (r0 & <- & _).
  unfold record. cbn [compliant]. apply compliant_combine.
  apply forallb_forall. intros j Hj.
  apply in_map_iff in Hj. destruct Hj as (v & <- & Hv).
  apply in_map_iff in Hv. destruct Hv as (v0 & <- & _).
  apply compliant_clean.
Qed.

(** The response of a page is always accepted by the encoder. *)
Lemma page_response_ok (cols : list (string * dtype)) (results : list row) (skip limit : Z) :
  page_response cols results skip limit =
  Ok (JDict [
    ("total", JInt (len results));
    ("skip", JInt skip);
    ("limit", JInt limit);
    ("data", to_dict_records cols (_clean_df (iloc results skip (skip + limit)))) ]).
Proof.
  unfold page_response, JSONResponse.
  cbn [compliant forallb snd]. rewrite compliant_records. reflexivity.
Qed.

(** ** Filtering *)

Section FilterFacts.
Local Open Scope list_scope.

Lemma records_results_filter (df : DataFrame) (query_params : params) :
  records_results df query_params =
  Ok (filter (fun r => forallb (satisfies (columns df) r) (filter_params query_params))
             (rows df)).
Proof. apply apply_filters_filter. Qed.

Lemma filter_dict_set (P : string -> bool) (d : params) (k v : string) :
  filter (fun kv : string * string => P (fst kv)) (dict_set d k v) =
  if P k then dict_set (filter (fun kv : string * string => P (fst kv)) d) k v
  else filter (fun kv : string * string => P (fst kv)) d.
Proof.
  induction d as [|[k0 v0] d IH]; simpl.
  - destruct (P k); reflexivity.
  - destruct (String.eqb_spec k0 k) as [->|N]; simpl.
    + destruct (P k); simpl; [now rewrite String.eqb_refl|reflexivity].
    + rewrite IH. destruct (P k0) eqn:E0, (P k) eqn:E; simpl; try reflexivity.
      destruct (String.eqb_spec k0 k); [congruence|reflexivity].
Qed.

(** Dropping the parameters of some names before or after [dict] is the
    same. *)
Lemma filter_dict (P : string -> bool) (items : params) :
  filter (fun kv : string * string => P (fst kv)) (dict items) = dict (filter (fun kv : string * string => P (fst kv)) items).
Proof.
  unfold dict.
  change (@nil (string * string)) with (filter (fun kv : string * string => P (fst kv)) []) at 2.
  generalize (@nil (string * string)) as d.
  induction items as [|[k v] items IH]; intros d; simpl; [reflexivity|].
  rewrite IH, filter_dict_set. destruct (P k); reflexivity.
Qed.

Lemma forallb_filter_skip {A : Type} (P Q : A -> bool) (l : list A) :
  (forall x, Q x = false -> P x = true) ->
  forallb P (filter Q l) = forallb P l.
Proof.
  intros H. induction l as [|x l IH]; simpl; [reflexivity|].
  destruct (Q x) eqn:E; simpl; rewrite IH; [reflexivity|].
  now rewrite (H x E).
Qed.

Lemma filter_comm {A : Type} (P Q : A -> bool) (l : list A) :
  filter P (filter Q l) = filter Q (filter P l).
Proof.
  rewrite !filter_filter. apply filter_ext. intros x. apply andb_comm.
Qed.

(** The parameters that label no column play no part in the selection. *)
Lemma records_results_columns_only (df : DataFrame) (query_params : params) :
  records_results df query_params =
  records_results df (filter (names_column (columns df)) query_params).
Proof.
  rewrite !records_results_filter. f_equal. apply filter_ext. intros r.
  rewrite !filter_params_spec.
  rewrite (filter_comm not_pagination).
  pose proof (filter_dict (fun k => match find_column (columns df) k with
                                    | Some _ => true | None => false end)
                          (filter not_pagination query_params)) as E.
  cbv beta in E. unfold names_column at 1. rewrite <- E.
  symmetry. apply forallb_filter_skip.
  intros [k v]. unfold satisfies. cbn [fst snd].
  destruct (find_column (columns df) k) as [[i d]|]; [discriminate|reflexivity].
Qed.

End FilterFacts.

(** C6. [_cast_type] never raises.  On a column of integers a text that
    [int] reads gives that integer, on a column of floats a text that
    [float] reads gives that float, and in every other case (a parse
    failure, or a column of another dtype) the raw text itself comes
    back. *)
Theorem cast_type_never_raises (d : dtype) (raw : string) :
  exists v : value,
    _cast_type d raw = Ok v /\
    match d with
    | Int64 =>
        match PyInt.int raw with
        | Ok z => v = VInt z
        | Raise _ => v = VStr raw
        end
    | Float64 =>
        match PyFloat.of_str raw with
        | Ok f => v = VFloat f
        | Raise _ => v = VStr raw
        end
    | Bool | Object => v = VStr raw
    end.
Proof.
  exists (cast_value d raw). split; [apply cast_type_total|].
  unfold cast_value. destruct d; try reflexivity.
  - destruct (PyInt.int raw); reflexivity.
  - destruct (PyFloat.of_str raw); reflexivity.
Qed.

(** C8. On [/records] the selection is the rows of the table that
    satisfy every remaining parameter at once, a parameter whose key
    labels no column being satisfied by every row; so dropping the
    parameters that label no column changes nothing, each parameter
    that labels a column holds in every selected row, no parameter at
    all selects the whole table, and the request succeeds whatever the
    parameters are. *)
Theorem filters_are_conjunctive (df : DataFrame) (query_params : params) :
  records_results df query_params =
    Ok (filter (fun r => forallb (satisfies (columns df) r) (filter_params query_params))
               (rows df)) /\
  records_results df query_params =
    records_results df (filter (names_column (columns df)) query_params) /\
  (forall results r key raw i d,
     records_results df query_params = Ok results ->
     In r results ->
     In (key, raw) (filter_params query_params) ->
     find_column (columns df) key = Some (i, d) ->
     value_eqb (cell i r) (cast_value d raw) = true) /\
  records_results df [] = Ok (rows df) /\
  (forall skip limit, exists content,
     get_records {| state_df := Some df |} query_params skip limit = Ok content).
Proof.
  split; [apply records_results_filter|].
  split; [apply records_results_columns_only|].
  split; [|split].
  - intros results r key raw i d Hres Hr Hin Hcol.
    rewrite records_results_filter in Hres. injection Hres as <-.
    apply filter_In in Hr. destruct Hr as [_ Hr].
    rewrite forallb_forall in Hr. specialize (Hr _ Hin).
    unfold satisfies in Hr. cbn [fst snd] in Hr. now rewrite Hcol in Hr.
  - rewrite records_results_filter. f_equal. now apply filter_true.
  - intros skip limit. unfold get_records. cbn [state_df].
    rewrite records_results_filter. cbn [bind]. rewrite page_response_ok. eauto.
Qed.

(** C10. [skip] and [limit] never filter: a request gives the same
    response as the request without its parameters of these two names,
    whatever their values and whatever the columns of the table are; in
    particular [/records?skip=v] and [/records?limit=v] select every row,
    also of a table that has a column labelled [skip] or [limit]. *)
Theorem pagination_keys_never_filter (st : State) (query_params : params) (skip limit : Z) :
  get_records st query_params skip limit =
    get_records st (filter not_pagination query_params) skip limit /\
  (forall v, get_records st [("skip", v)] skip limit = get_records st [] skip limit) /\
  (forall v, get_records st [("limit", v)] skip limit = get_records st [] skip limit) /\
  (forall df v, records_results df [("skip", v)] = Ok (rows df)) /\
  (forall df v, records_results df [("limit", v)] = Ok (rows df)).
Proof.
  assert (G : forall qp, get_records st qp skip limit =
                         get_records st (filter not_pagination qp) skip limit).
  { intros qp. unfold get_records, records_results.
    destruct (state_df st) as [df|]; [|reflexivity].
    rewrite !filter_params_spec, filter_filter.
    replace (filter (fun x => not_pagination x && not_pagination x) qp)
      with (filter not_pagination qp); [reflexivity|].
    apply filter_ext. intros x. now destruct (not_pagination x). }
  assert (R : forall df, records_results df [] = Ok (rows df)).
  { intros df. rewrite records_results_filter. f_equal. now apply filter_true. }
  split; [apply G|].
  split; [intros v; apply (G [("skip", v)])|].
  split; [intros v; apply (G [("limit", v)])|].
  split; intros df v; exact (R df).
Qed.

(** ** Search *)

Section SearchFacts.
Variable re : string -> option (string -> bool).
Local Open Scope list_scope.

Lemma compile_raises (q : string) (e : exn) :
  compile re q = Raise e -> exists msg, e = ReError msg.
Proof.
  unfold compile. destruct (Re.atoms _); [discriminate|].
  destruct (re q); [discriminate|]. intros H. injection H as <-. eauto.
Qed.

Lemma search_mask_raises (str_cols : list nat) (rs : list row) (q : string)
    (mask : list bool) (e : exn) :
  search_mask re str_cols rs q mask = Raise e -> exists msg, e = ReError msg.
Proof.
  revert mask. induction str_cols as [|c str_cols IH]; intros mask; simpl;
    [discriminate|].
  unfold str_contains.
  destruct (compile re q) as [m|e'] eqn:E; cbn [bind].
  - apply IH.
  - intros H. injection H as <-. now apply compile_raises in E.
Qed.

(** [search] on a loaded table, through the rows it selects. *)
Lemma search_loaded (df : DataFrame) (q : string) (skip limit : Z) :
  search re {| state_df := Some df |} q skip limit =
  match select_dtypes (columns df) O with
  | [] => Ok (JDict [ ("total", JInt 0); ("data", JList []) ])
  | _ :: _ =>
      results <- search_results re df q ;;
      page_response (columns df) results skip limit
  end.
Proof.
  unfold search, search_results. cbn [state_df].
  destruct (select_dtypes (columns df) O) as [|c cs]; [reflexivity|].
  cbn [List.length Nat.eqb].
  destruct (search_mask re (c :: cs) (rows df) q _); reflexivity.
Qed.

Lemma search_results_raises (df : DataFrame) (q : string) (e : exn) :
  search_results re df q = Raise e -> exists msg, e = ReError msg.
Proof.
  unfold search_results.
  destruct (select_dtypes (columns df) O) as [|c cs]; [discriminate|].
  destruct (search_mask re (c :: cs) (rows df) q _) as [m|e'] eqn:E; cbn [bind];
    [discriminate|].
  intros H. injection H as <-. now apply search_mask_raises in E.
Qed.

End SearchFacts.

(** ** Sanitization *)

Lemma sanitized_clean (v : value) : json_of_value (clean_value v) = sanitized v.
Proof. destruct v as [z|[s|s| |s m e]|s|b|]; reflexivity. Qed.

Lemma records_sanitized (cols : list (string * dtype)) (rs : list row) :
  to_dict_records cols (_clean_df rs) = JList (map (sanitized_record cols) rs).
Proof.
  unfold to_dict_records, _clean_df. f_equal. rewrite map_map.
  apply map_ext. intros r. unfold record, sanitized_record. do 2 f_equal.
  rewrite map_map. apply map_ext. apply sanitized_clean.
Qed.

Lemma compliant_sanitized (cols : list (string * dtype)) (rs : list row) :
  compliant (JList (map (sanitized_record cols) rs)) = true.
Proof. rewrite <- records_sanitized. apply compliant_records. Qed.

(** C2. With [skip >= 0] and [limit >= 0], the page of [/records] and
    of [/search] has [min(limit, max(0, total - skip))] rows, where
    [total] is the number of selected rows, and the field [total] of the
    response is that number, whatever [skip] and [limit] are. *)
Theorem pagination_invariants
    (re : string -> option (string -> bool)) (df : DataFrame)
    (query_params : params) (q : string) (skip limit : Z) :
  0 <= skip -> 0 <= limit ->
  (exists results content page,
     records_results df query_params = Ok results /\
     get_records {| state_df := Some df |} query_params skip limit = Ok content /\
     field "total" content = Some (JInt (len results)) /\
     field "data" content = Some (JList page) /\
     len page = Z.min limit (Z.max 0 (len results - skip))) /\
  (forall results,
     search_results re df q = Ok results ->
     exists content page,
       search re {| state_df := Some df |} q skip limit = Ok content /\
       field "total" content = Some (JInt (len results)) /\
       field "data" content = Some (JList page) /\
       len page = Z.min limit (Z.max 0 (len results - skip))).
Proof.
  intros Hs Hl.
  assert (P : forall results : list row,
            len (map (sanitized_record (columns df))
                     (iloc results skip (skip + limit))) =
            Z.min limit (Z.max 0 (len results - skip))).
  { intros results. rewrite <- (iloc_length results skip limit Hs Hl).
    unfold len. now rewrite length_map. }
  split.
  - rewrite records_results_filter.
    eexists. eexists. eexists. split; [reflexivity|].
    unfold get_records. cbn [state_df]. rewrite records_results_filter. cbn [bind].
    rewrite page_response_ok, records_sanitized.
    split; [reflexivity|]. split; [reflexivity|]. split; [reflexivity|]. apply P.
  - intros results Hres. rewrite search_loaded.
    unfold search_results in Hres.
    destruct (select_dtypes (columns df) O) as [|c cs] eqn:E.
    + injection Hres as <-. eexists. exists []. split; [reflexivity|].
      split; [reflexivity|]. split; [reflexivity|].
      unfold len. simpl. lia.
    + unfold search_results. rewrite E, Hres. cbn [bind].
      rewrite page_response_ok, records_sanitized.
      eexists. eexists. split; [reflexivity|].
      split; [reflexivity|]. split; [reflexivity|]. apply P.
Qed.

(** C9. The rows of a response are those of the page and of nothing
    else, each cell shown sanitized: [null] in place of NaN and of
    either infinity, an integer or a text as it is; the encoder, which
    refuses NaN and the infinities, accepts the content; and the field
    [total] still counts the whole selection. *)
Theorem page_is_sanitized
    (re : string -> option (string -> bool)) (df : DataFrame)
    (query_params : params) (q : string) (skip limit : Z) :
  (exists results,
     records_results df query_params = Ok results /\
     get_records {| state_df := Some df |} query_params skip limit =
       Ok (JDict [
         ("total", JInt (len results));
         ("skip", JInt skip);
         ("limit", JInt limit);
         ("data", JList (map (sanitized_record (columns df))
                             (iloc results skip (skip + limit)))) ])) /\
  (forall results,
     search_results re df q = Ok results ->
     exists content,
       search re {| state_df := Some df |} q skip limit = Ok content /\
       compliant content = true /\
       field "total" content = Some (JInt (len results)) /\
       field "data" content =
         Some (JList (map (sanitized_record (columns df))
                          (iloc results skip (skip + limit))))) /\
  (forall rs, compliant (JList (map (sanitized_record (columns df)) rs)) = true) /\
  (forall f, PyFloat.is_nan f || PyFloat.is_inf f = true -> sanitized (VFloat f) = JNull) /\
  (forall z, sanitized (VInt z) = JInt z) /\
  (forall s, sanitized (VStr s) = JStr s).
Proof.
  split; [|split; [|split; [|split; [|split]]]].
  - rewrite records_results_filter. eexists. split; [reflexivity|].
    unfold get_records. cbn [state_df]. rewrite records_results_filter. cbn [bind].
    now rewrite page_response_ok, records_sanitized.
  - intros results Hres. rewrite search_loaded.
    unfold search_results in Hres.
    destruct (select_dtypes (columns df) O) as [|c cs] eqn:E.
    + injection Hres as <-. eexists. split; [reflexivity|].
      split; [reflexivity|]. split; [reflexivity|].
      now rewrite iloc_nil.
    + unfold search_results. rewrite E, Hres. cbn [bind].
      rewrite page_response_ok, records_sanitized.
      eexists. split; [reflexivity|]. split; [|split; reflexivity].
      pose proof (compliant_sanitized (columns df)
                    (iloc results skip (skip + limit))) as C.
      cbn [compliant] in C. cbn [compliant forallb snd]. now rewrite C.
  - intros rs. apply compliant_sanitized.
  - intros [s|s| |s m e] H; try reflexivity; discriminate.
  - reflexivity.
  - reflexivity.
Qed.

(** ** The state *)

(** C4. An upload whose file name does not end in [.csv], or whose bytes
    cannot be read or parsed, is answered by an error (400 or 500) and
    leaves the state as it was; and whenever the handler answers by an
    error, one of these two failures happened and the state is
    unchanged. *)
Theorem failed_upload_keeps_state
    (read_csv : string -> result DataFrame) (st : State) (file : UploadFile) :
  (Text.endswith (filename file) ".csv" = false \/
   (exists e, (contents <- read file ;; read_csv contents) = Raise e) ->
   exists status detail,
     upload_csv read_csv st file = (Raise (HTTPException status detail), st) /\
     (status = 400 \/ status = 500)) /\
  (forall e st',
     upload_csv read_csv st file = (Raise e, st') ->
     st' = st /\
     (Text.endswith (filename file) ".csv" = false \/
      exists e', (contents <- read file ;; read_csv contents) = Raise e')).
Proof.
  unfold upload_csv. split.
  - intros [H|[e H]].
    + rewrite H. cbn [negb]. eauto 6.
    + destruct (Text.endswith (filename file) ".csv"); cbn [negb]; [|eauto 6].
      rewrite H. eauto 6.
  - intros e st'.
    destruct (Text.endswith (filename file) ".csv"); cbn [negb].
    + destruct (contents <- read file;; read_csv contents) as [df|e0] eqn:E;
        intros H; [discriminate|].
      injection H as _ <-. split; [reflexivity|]. right. eauto.
    + intros H. injection H as _ <-. split; [reflexivity|]. now left.
Qed.

(** C7. While the state holds no table, [/records] and [/search] answer
    with the no-data error (404).  A successful upload leaves a table in
    the state; from then on [/records] always succeeds and [/search]
    never answers with the no-data error, and a query that selects no
    row succeeds with [total] 0 and an empty [data]. *)
Theorem no_data_only_before_upload
    (re : string -> option (string -> bool)) (read_csv : string -> result DataFrame) :
  (forall query_params skip limit,
     get_records {| state_df := None |} query_params skip limit = Raise no_data) /\
  (forall q skip limit,
     search re {| state_df := None |} q skip limit = Raise no_data) /\
  (forall st file content st',
     upload_csv read_csv st file = (Ok content, st') ->
     exists df, state_df st' = Some df) /\
  (forall df query_params skip limit,
     exists content,
       get_records {| state_df := Some df |} query_params skip limit = Ok content /\
       (records_results df query_params = Ok [] ->
        field "total" content = Some (JInt 0) /\
        field "data" content = Some (JList []))) /\
  (forall df q skip limit,
     search re {| state_df := Some df |} q skip limit <> Raise no_data /\
     (search_results re df q = Ok [] ->
      exists content,
        search re {| state_df := Some df |} q skip limit = Ok content /\
        field "total" content = Some (JInt 0) /\
        field "data" content = Some (JList []))).
Proof.
  split; [reflexivity|]. split; [reflexivity|]. split; [|split].
  - intros st file content st'. unfold upload_csv.
    destruct (negb _); [discriminate|].
    destruct (contents <- read file;; read_csv contents) as [df|e]; [|discriminate].
    intros H. injection H as _ <-. exists df. reflexivity.
  - intros df qp skip limit. unfold get_records. cbn [state_df].
    rewrite records_results_filter. cbn [bind]. rewrite page_response_ok.
    eexists. split; [reflexivity|]. intros H. injection H as ->.
    rewrite iloc_nil. split; reflexivity.
  - intros df q skip limit. rewrite search_loaded. split.
    + destruct (select_dtypes (columns df) O) as [|c cs]; [discriminate|].
      destruct (search_results re df q) as [results|e] eqn:E; cbn [bind].
      * rewrite page_response_ok. discriminate.
      * apply search_results_raises in E. destruct E as [msg ->]. discriminate.
    + intros H. destruct (select_dtypes (columns df) O) as [|c cs].
      * eexists. repeat split; reflexivity.
      * rewrite H. cbn [bind]. rewrite page_response_ok, iloc_nil.
        eexists. repeat split; reflexivity.
Qed.

(** ** Search on the query text *)

(** C1. The query is read as a pattern and a missing cell as the text
    [nan]: on the table [people] the query [.] selects both rows though
    no name contains a dot, and on the table [scores] the query [nan]
    selects the row whose name is missing though no name contains
    [nan]. *)
Theorem search_reads_query_as_pattern (re : string -> option (string -> bool)) :
  search re {| state_df := Some people |} "." 0 100 =
    Ok (JDict [
      ("total", JInt 2); ("skip", JInt 0); ("limit", JInt 100);
      ("data", JList [
         JDict [("name", JStr "Alice"); ("age", JInt 30)];
         JDict [("name", JStr "Bob"); ("age", JInt 25)] ]) ]) /\
  contains_ci "Alice" "." = false /\
  contains_ci "Bob" "." = false /\
  search re {| state_df := Some scores |} "nan" 0 100 =
    Ok (JDict [
      ("total", JInt 1); ("skip", JInt 0); ("limit", JInt 100);
      ("data", JList [
         JDict [("name", JNull);
                ("score", JFloat (S754_finite false 5629499534213120 (-51)))] ]) ]) /\
  contains_ci "Alice" "nan" = false /\
  contains_ci "Carol" "nan" = false.
Proof. repeat split; reflexivity. Qed.

(** C5. On a table without a column of text [/search] succeeds with
    [total] 0 and an empty [data]; that response has no field [skip] and
    no field [limit]. *)
Theorem search_without_text_columns
    (re : string -> option (string -> bool)) (df : DataFrame)
    (q : string) (skip limit : Z) :
  select_dtypes (columns df) O = [] ->
  exists content,
    search re {| state_df := Some df |} q skip limit = Ok content /\
    field "total" content = Some (JInt 0) /\
    field "data" content = Some (JList []) /\
    field "skip" content = None /\
    field "limit" content = None.
Proof.
  intros H. rewrite search_loaded, H. eexists. repeat split; reflexivity.
Qed.

(** ** A row and its own text *)

Section OwnText.
Local Open Scope list_scope.

Lemma cell_of_column (cols : list (string * dtype)) (r : row) (key : string)
    (i : nat) (d : dtype) :
  row_ok cols r = true -> find_column cols key = Some (i, d) ->
  cell_ok d (cell i r) = true.
Proof.
  revert r i. induction cols as [|[name d0] cols IH]; intros r i Hr Hf; simpl in Hf;
    [discriminate|].
  destruct r as [|v r]; [discriminate|]. simpl in Hr.
  apply andb_prop in Hr. destruct Hr as [Hv Hr].
  destruct (String.eqb name key).
  - injection Hf as <- <-. exact Hv.
  - destruct (find_column cols key) as [[j d']|] eqn:E; [|discriminate].
    injection Hf as <- <-. unfold cell. simpl. now apply (IH r j).
Qed.





End OwnText.





(** ** Instances *)

Lemma pagination_invariants_witness :
  (exists results content page,
     records_results people [("age", "30")] = Ok results /\
     get_records {| state_df := Some people |} [("age", "30")] 1 10 = Ok content /\
     field "total" content = Some (JInt (len results)) /\
     field "data" content = Some (JList page) /\
     len page = Z.min 10 (Z.max 0 (len results - 1))) /\
  (forall results,
     search_results strict_engine people "bob" = Ok results ->
     exists content page,
       search strict_engine {| state_df := Some people |} "bob" 1 10 = Ok content /\
       field "total" content = Some (JInt (len results)) /\
       field "data" content = Some (JList page) /\
       len page = Z.min 10 (Z.max 0 (len results - 1))).
Proof.
  apply (pagination_invariants strict_engine people [("age", "30")] "bob" 1 10); lia.
Defined.

Lemma failed_upload_keeps_state_witness :
  exists status detail,
    upload_csv empty_parser {| state_df := Some people |}
      {| filename := "data.csv"; read := Ok "" |} =
    (Raise (HTTPException status detail), {| state_df := Some people |}) /\
    (status = 400 \/ status = 500).
Proof.
  apply (proj1 (failed_upload_keeps_state empty_parser {| state_df := Some people |}
                  {| filename := "data.csv"; read := Ok "" |})).
  right. exists (Exception "No columns to parse from file"). reflexivity.
Defined.

Lemma search_without_text_columns_witness :
  exists content,
    search strict_engine {| state_df := Some ledger |} "7" 0 100 = Ok content /\
    field "total" content = Some (JInt 0) /\
    field "data" content = Some (JList []) /\
    field "skip" content = None /\
    field "limit" content = None.
Proof.
  apply (search_without_text_columns strict_engine ledger "7" 0 100). reflexivity.
Defined.

Lemma no_data_only_before_upload_witness :
  (exists df,
     state_df (snd (upload_csv people_parser {| state_df := None |}
                      {| filename := "people.csv"; read := Ok "name,age" |})) = Some df) /\
  (exists content,
     search strict_engine {| state_df := Some people |} "zed" 0 100 = Ok content /\
     field "total" content = Some (JInt 0) /\
     field "data" content = Some (JList [])).
Proof.
  destruct (no_data_only_before_upload strict_engine people_parser)
    as (_ & _ & Hup & _ & Hsearch).
  split.
  - apply (Hup {| state_df := None |}
               {| filename := "people.csv"; read := Ok "name,age" |}
               (JDict [ ("message", JStr "CSV file 'people.csv' uploaded successfully.");
                        ("rows", JInt 2) ])).
    reflexivity.
  - apply (proj2 (Hsearch people "zed" 0 100)). reflexivity.
Defined.

Lemma filters_are_conjunctive_witness :
  value_eqb (cell 1 [VStr "Alice"; VInt 30]) (cast_value Int64 "30") = true.
Proof.
  destruct (filters_are_conjunctive people [("age", "30"); ("colour", "red")])
    as (_ & _ & H & _).
  apply (H [[VStr "Alice"; VInt 30]] [VStr "Alice"; VInt 30] "age" "30" 1%nat Int64).
  - reflexivity.
  - simpl. auto.
  - simpl. auto.
  - reflexivity.
Defined.

Lemma page_is_sanitized_witness :
  exists content,
    search strict_engine {| state_df := Some scores |} "carol" 0 100 = Ok content /\
    compliant content = true /\
    field "total" content = Some (JInt 1) /\
    field "data" content =
      Some (JList [ JDict [("name", JStr "Carol"); ("score", JNull)] ]).
Proof.
  destruct (page_is_sanitized strict_engine scores [] "carol" 0 100) as (_ & H & _).
  apply (H [[VStr "Carol"; VFloat S754_nan]]). reflexivity.
Defined.

(** * Further properties *)

(** ** Pages *)

Section Pages.
Context {A : Type}.
Local Open Scope list_scope.



End Pages.



(** X2. Negative offsets count from the end, as in a Python slice: with
    [skip = 0] and a negative [limit] the page is the selection without
    its last [- limit] rows, and with a negative [skip] and a [limit] that
    reaches past the end the page is the last [- skip] rows. *)
Theorem negative_offsets_count_from_the_end
    (df : DataFrame) (query_params : params) (k limit : Z) :
  0 < k ->
  exists results,
    records_results df query_params = Ok results /\
    (exists content,
       get_records {| state_df := Some df |} query_params 0 (- k) = Ok content /\
       field "total" content = Some (JInt (len results)) /\
       data_rows content =
         map (sanitized_record (columns df))
             (firstn (List.length results - Z.to_nat k) results)) /\
    (len results + k <= limit ->
     exists content,
       get_records {| state_df := Some df |} query_params (- k) limit = Ok content /\
       field "total" content = Some (JInt (len results)) /\
       data_rows content =
         map (sanitized_record (columns df))
             (skipn (List.length results - Z.to_nat k) results)).
Proof.
  intros Hk. unfold get_records. cbn [state_df].
  rewrite records_results_filter. cbn [bind].
  set (results := filter _ (rows df)).
  exists results. split; [reflexivity|].
  rewrite !page_response_ok, !records_sanitized. split.
  - eexists. split; [reflexivity|]. split; [reflexivity|].
    unfold data_rows. cbn. f_equal.
    unfold iloc, slice_bound, len. cbn [Z.ltb Z.compare].
    replace (- k <? 0) with true by (symmetry; apply Z.ltb_lt; lia).
    rewrite (Z.min_l 0) by lia. cbn [Z.to_nat skipn]. f_equal. lia.
  - intros Hlim. eexists. split; [reflexivity|]. split; [reflexivity|].
    unfold data_rows. cbn. f_equal.
    unfold iloc, slice_bound, len in *.
    replace (- k <? 0) with true by (symmetry; apply Z.ltb_lt; lia).
    replace (- k + limit <? 0) with false by (symmetry; apply Z.ltb_ge; lia).
    rewrite (Z.min_r (- k + limit)) by lia.
    replace (Z.to_nat (Z.max 0 (- k + Z.of_nat (List.length results))))
      with (List.length results - Z.to_nat k)%nat by lia.
    apply firstn_all2. rewrite length_skipn. lia.
Qed.

Lemma negative_offsets_witness :
  exists results,
    records_results people [] = Ok results /\
    (exists content,
       get_records {| state_df := Some people |} [] 0 (- 1) = Ok content /\
       field "total" content = Some (JInt (len results)) /\
       data_rows content =
         map (sanitized_record (columns people))
             (firstn (List.length results - Z.to_nat 1) results)) /\
    (len results + 1 <= 100 ->
     exists content,
       get_records {| state_df := Some people |} [] (- 1) 100 = Ok content /\
       field "total" content = Some (JInt (len results)) /\
       data_rows content =
         map (sanitized_record (columns people))
             (skipn (List.length results - Z.to_nat 1) results)).
Proof. apply (negative_offsets_count_from_the_end people [] 1 100). lia. Defined.

(** ** Repeated parameters *)

Section LastValue.
Local Open Scope list_scope.

Lemma dict_get_set (k k' v : string) (d : params) :
  dict_get k (dict_set d k' v) = if String.eqb k' k then Some v else dict_get k d.
Proof.
  unfold dict_get. induction d as [|[k0 v0] d IH]; simpl.
  - destruct (String.eqb k' k); reflexivity.
  - destruct (String.eqb_spec k0 k') as [->|N]; simpl.
    + destruct (String.eqb k' k); reflexivity.
    + destruct (String.eqb_spec k0 k) as [->|N']; simpl.
      * destruct (String.eqb_spec k' k); [congruence|reflexivity].
      * exact IH.
Qed.

Lemma dict_get_dict (k : string) (items : params) :
  dict_get k (dict items) = last_value k items.
Proof.
  unfold dict, last_value.
  change (@None string) with (dict_get k []).
  generalize (@nil (string * string)) as d.
  induction items as [|[k' v] items IH]; intros d; simpl; [reflexivity|].
  rewrite IH, dict_get_set. reflexivity.
Qed.

Lemma keys_dict_set (d : params) (k v : string) :
  map fst (dict_set d k v) = map fst d \/
  (~ In k (map fst d) /\ map fst (dict_set d k v) = map fst d ++ [k]).
Proof.
  induction d as [|[k0 v0] d IH]; simpl.
  - right. split; [tauto|reflexivity].
  - destruct (String.eqb_spec k0 k) as [->|N]; simpl; [now left|].
    destruct IH as [->|[Hn ->]]; [now left|].
    right. split; [|reflexivity]. intros [E|E]; [congruence|tauto].
Qed.

(** A [dict] holds each key once. *)
Lemma dict_keys_nodup (items : params) : NoDup (map fst (dict items)).
Proof.
  unfold dict.
  assert (G : forall d, NoDup (map fst d) ->
              NoDup (map fst (fold_left (fun d kv => dict_set d (fst kv) (snd kv))
                                       items d))).
  { induction items as [|[k v] items IH]; intros d Hd; simpl; [exact Hd|].
    apply IH. destruct (keys_dict_set d k v) as [->|[Hn ->]]; [exact Hd|].
    apply NoDup_app; [exact Hd|repeat constructor; simpl; tauto|].
    intros x Hx [<-|[]]. tauto. }
  apply G. constructor.
Qed.

Lemma in_dict_get (d : params) (k v : string) :
  NoDup (map fst d) -> (In (k, v) d <-> dict_get k d = Some v).
Proof.
  unfold dict_get. induction d as [|[k0 v0] d IH]; intros Hd; simpl.
  - split; [tauto|discriminate].
  - inversion Hd as [|? ? Hn Hd']; subst.
    destruct (String.eqb_spec k0 k) as [->|N]; simpl.
    + split.
      * intros [E|E]; [injection E as ->; reflexivity|].
        exfalso. apply Hn. apply in_map_iff. now exists (k, v).
      * intros E. left. injection E as ->. reflexivity.
    + rewrite <- (IH Hd'). split; [intros [E|E]; [congruence|exact E]|tauto].
Qed.

Lemma last_value_filter (P : string -> bool) (k : string) (items : params) :
  last_value k (filter (fun kv : string * string => P (fst kv)) items) =
  if P k then last_value k items else None.
Proof.
  rewrite <- !dict_get_dict, <- filter_dict.
  unfold dict_get. induction (dict items) as [|[k0 v0] d IH]; simpl.
  - destruct (P k); reflexivity.
  - destruct (P k0) eqn:E0; simpl.
    + destruct (String.eqb_spec k0 k) as [->|N]; simpl; [now rewrite E0|exact IH].
    + destruct (String.eqb_spec k0 k) as [->|N]; simpl; [|exact IH].
      rewrite IH. now rewrite E0.
Qed.

(** The parameters that filter: the last value of every key of the
    query but [skip] and [limit]. *)
Lemma in_filter_params (query_params : params) (k v : string) :
  In (k, v) (filter_params query_params) <->
  k <> "skip" /\ k <> "limit" /\ last_value k query_params = Some v.
Proof.
  rewrite filter_params_spec.
  rewrite in_dict_get by apply dict_keys_nodup.
  rewrite dict_get_dict.
  pose proof (last_value_filter
                (fun k => negb (String.eqb k "skip") && negb (String.eqb k "limit"))
                k query_params) as E.
  change (filter _ query_params) with (filter not_pagination query_params) in E.
  rewrite E. clear E.
  destruct (String.eqb_spec k "skip") as [->|N1]; simpl.
  - split; [discriminate|tauto].
  - destruct (String.eqb_spec k "limit") as [->|N2]; simpl.
    + split; [discriminate|tauto].
    + tauto.
Qed.

End LastValue.

(** X3. When a key is repeated in the query of [/records], its last
    value is the one that filters: a row is selected exactly when it is
    a row of the table that satisfies, for every key other than [skip]
    and [limit], the parameter made of that key and of its last value. *)
Theorem last_value_filters (df : DataFrame) (query_params : params) :
  exists results,
    records_results df query_params = Ok results /\
    forall r,
      In r results <->
      In r (rows df) /\
      forall k v,
        k <> "skip" -> k <> "limit" ->
        last_value k query_params = Some v ->
        satisfies (columns df) r (k, v) = true.
Proof.
  rewrite records_results_filter. eexists. split; [reflexivity|].
  intros r. rewrite filter_In, forallb_forall. split.
  - intros [Hr H]. split; [exact Hr|]. intros k v N1 N2 L.
    apply H. apply in_filter_params. tauto.
  - intros [Hr H]. split; [exact Hr|]. intros [k v] Hin.
    apply in_filter_params in Hin. destruct Hin as (N1 & N2 & L). now apply H.
Qed.

Lemma last_value_filters_witness :
  In [VStr "Bob"; VInt 25] (rows people) /\
  forall k v,
    k <> "skip" -> k <> "limit" ->
    last_value k [("age", "30"); ("age", "25")] = Some v ->
    satisfies (columns people) [VStr "Bob"; VInt 25] (k, v) = true.
Proof.
  destruct (last_value_filters people [("age", "30"); ("age", "25")])
    as (results & Hres & H).
  apply H. vm_compute in Hres. injection Hres as <-. simpl. auto.
Defined.

(** ** Cells that no filter finds *)

Section NoMatch.
Local Open Scope list_scope.

Lemma filter_none {A : Type} (f : A -> bool) (l : list A) :
  (forall x, In x l -> f x = false) -> filter f l = [].
Proof.
  induction l as [|x l IH]; intros H; simpl; [reflexivity|].
  rewrite (H x) by now left. apply IH. intros y Hy. apply H. now right.
Qed.

Lemma nan_equals_nothing (v : value) : value_eqb (VFloat S754_nan) v = false.
Proof. destruct v as [z|f|s|b|]; reflexivity. Qed.

Lemma typed_cell_is_not_text (d : dtype) (v : value) (raw : string) :
  cell_ok d v = true -> d <> Object -> value_eqb v (VStr raw) = false.
Proof.
  intros Hc Hd. destruct d, v as [z|f|s|b|]; try discriminate; try reflexivity.
  congruence.
Qed.

End NoMatch.

(** X4. A row whose cell in a column is missing is found by no filter on
    that column, whatever the value asked for. *)
Theorem missing_cell_never_selected
    (df : DataFrame) (query_params : params) (key raw : string)
    (i : nat) (d : dtype) (r : row) (results : list row) :
  find_column (columns df) key = Some (i, d) ->
  cell i r = VFloat S754_nan ->
  key <> "skip" -> key <> "limit" ->
  last_value key query_params = Some raw ->
  records_results df query_params = Ok results ->
  ~ In r results.
Proof.
  intros Hcol Hcell N1 N2 L Hres Hin.
  rewrite records_results_filter in Hres. injection Hres as <-.
  apply filter_In in Hin. destruct Hin as [_ Hin].
  rewrite forallb_forall in Hin.
  specialize (Hin (key, raw)). unfold satisfies in Hin. cbn [fst snd] in Hin.
  rewrite Hcol, Hcell, nan_equals_nothing in Hin.
  assert (false = true); [|discriminate].
  apply Hin. apply in_filter_params. tauto.
Qed.

Lemma missing_cell_never_selected_witness :
  ~ In [VStr "Carol"; VFloat S754_nan]
       [[VStr "Alice"; VFloat (S754_finite false 6755399441055744 (-52))]].
Proof.
  apply (missing_cell_never_selected scores [("score", "1.5")] "score" "1.5"
           1%nat Float64).
  - reflexivity.
  - reflexivity.
  - discriminate.
  - discriminate.
  - reflexivity.
  - vm_compute. reflexivity.
Defined.

(** X5. A filter whose value falls back to text on a column that is not
    of text selects no row: so does a text that [int] rejects on a
    column of integers, a text that [float] rejects on a column of
    floats, and any text at all on a column of truth values. *)
Theorem fallback_to_text_selects_nothing
    (df : DataFrame) (query_params : params) (key raw : string)
    (i : nat) (d : dtype) :
  well_formed df ->
  find_column (columns df) key = Some (i, d) ->
  d <> Object ->
  _cast_type d raw = Ok (VStr raw) ->
  key <> "skip" -> key <> "limit" ->
  last_value key query_params = Some raw ->
  records_results df query_params = Ok [] /\
  (forall skip limit, exists content,
     get_records {| state_df := Some df |} query_params skip limit = Ok content /\
     field "total" content = Some (JInt 0) /\
     field "data" content = Some (JList [])) /\
  (forall any, _cast_type Bool any = Ok (VStr any)).
Proof.
  intros [_ Hwf] Hcol Hd Hcast N1 N2 L.
  assert (R : records_results df query_params = Ok []).
  { rewrite records_results_filter. f_equal. apply filter_none.
    intros r Hr. apply not_true_is_false. intros H.
    rewrite forallb_forall in H. specialize (H (key, raw)).
    unfold satisfies in H. cbn [fst snd] in H. rewrite Hcol in H.
    rewrite cast_type_total in Hcast. injection Hcast as Hcast. rewrite Hcast in H.
    rewrite (typed_cell_is_not_text d _ raw) in H; [|
      apply (cell_of_column (columns df) r key); [now apply Hwf|exact Hcol]|exact Hd].
    assert (false = true); [|discriminate].
    apply H. apply in_filter_params. tauto. }
  split; [exact R|]. split; [|reflexivity].
  intros skip limit. unfold get_records. cbn [state_df]. rewrite R. cbn [bind].
  rewrite page_response_ok, iloc_nil. eexists. repeat split; reflexivity.
Qed.

Lemma people_well_formed : well_formed people.
Proof.
  split.
  - repeat constructor; simpl; intuition discriminate.
  - intros r [<-|[<-|[]]]; reflexivity.
Qed.

Lemma fallback_to_text_witness :
  records_results people [("age", "thirty")] = Ok [] /\
  (forall skip limit, exists content,
     get_records {| state_df := Some people |} [("age", "thirty")] skip limit = Ok content /\
     field "total" content = Some (JInt 0) /\
     field "data" content = Some (JList [])) /\
  (forall any, _cast_type Bool any = Ok (VStr any)).
Proof.
  apply (fallback_to_text_selects_nothing people [("age", "thirty")] "age" "thirty"
           1%nat Int64).
  - exact people_well_formed.
  - reflexivity.
  - discriminate.
  - reflexivity.
  - discriminate.
  - discriminate.
  - reflexivity.
Defined.

(** ** What [search] selects *)

Section SearchSelection.
Variable re : string -> option (string -> bool).
Local Open Scope list_scope.

Lemma mask_or_map {A : Type} (f g : A -> bool) (l : list A) :
  mask_or (map f l) (map g l) = map (fun x => f x || g x) l.
Proof. induction l as [|x l IH]; simpl; [reflexivity|now rewrite IH]. Qed.

Lemma search_mask_map (m : string -> bool) (q : string) (cs : list nat)
    (rs : list row) (f : row -> bool) :
  compile re q = Ok m ->
  search_mask re cs rs q (map f rs) =
  Ok (map (fun r => f r || existsb (fun c => m (str_value (cell c r))) cs) rs).
Proof.
  intros Hm. revert f. induction cs as [|c cs IH]; intros f; simpl.
  - f_equal. apply map_ext. intros r. now rewrite orb_false_r.
  - unfold str_contains. rewrite Hm. cbn [bind]. rewrite map_map.
    rewrite mask_or_map, IH. f_equal. apply map_ext. intros r.
    now rewrite orb_assoc.
Qed.

Lemma repeat_false_map {A : Type} (l : list A) :
  repeat false (List.length l) = map (fun _ => false) l.
Proof. induction l as [|x l IH]; simpl; [reflexivity|now rewrite IH]. Qed.

(** With a pattern that compiles, the selection is the rows of which
    some column of text matches. *)
Lemma search_results_filter (m : string -> bool) (df : DataFrame) (q : string) :
  compile re q = Ok m ->
  search_results re df q =
  Ok (filter (fun r => existsb (fun c => m (str_value (cell c r)))
                               (select_dtypes (columns df) O))
             (rows df)).
Proof.
  intros Hm. unfold search_results.
  destruct (select_dtypes (columns df) O) as [|c cs] eqn:E.
  - f_equal. symmetry. now apply filter_none.
  - rewrite repeat_false_map, (search_mask_map m) by exact Hm. cbn [bind].
    now rewrite boolean_index_map.
Qed.

Lemma search_results_rejected (df : DataFrame) (q : string) (e : exn) :
  compile re q = Raise e ->
  select_dtypes (columns df) O <> [] ->
  search_results re df q = Raise e.
Proof.
  intros Hc Hne. unfold search_results.
  destruct (select_dtypes (columns df) O) as [|c cs]; [congruence|].
  cbn [search_mask]. unfold str_contains. now rewrite Hc.
Qed.

End SearchSelection.

Section Positions.
Local Open Scope list_scope.
Local Open Scope nat_scope.

(** [select_dtypes] gives the positions of the columns of dtype
    [object], and no other. *)
Lemma select_dtypes_spec (cols : list (string * dtype)) (i c : nat) :
  In c (select_dtypes cols i) <->
  i <= c /\ exists name, nth_error cols (c - i) = Some (name, Object).
Proof.
  revert i. induction cols as [|[name d] cols IH]; intros i; simpl.
  - split; [tauto|]. intros [_ [n H]]. destruct (c - i); discriminate.
  - assert (Step : In c (select_dtypes cols (S i)) <->
                   S i <= c /\ exists n, nth_error ((name, d) :: cols) (c - i) = Some (n, Object)).
    { rewrite IH. split; intros [H [n Hn]]; (split; [lia|]); exists n.
      - replace (c - i) with (S (c - S i)) by lia. exact Hn.
      - replace (c - i) with (S (c - S i)) in Hn by lia. exact Hn. }
    assert (Here : forall n, i = c -> nth_error ((name, d) :: cols) (c - i) = Some (n, Object)
                                   <-> (n = name /\ d = Object)).
    { intros n ->. rewrite Nat.sub_diag. simpl. split.
      - intros H. injection H as -> ->. tauto.
      - intros [-> ->]. reflexivity. }
    destruct d; try (rewrite Step; split;
      [intros [H [n Hn]]; split; [lia|eauto]
      |intros [H [n Hn]]; destruct (Nat.eq_dec i c) as [E|E];
         [apply (Here n E) in Hn; destruct Hn; discriminate|split; [lia|eauto]]]).
    simpl. rewrite Step. split.
    + intros [<-|[H [n Hn]]].
      * split; [lia|]. exists name. now apply Here.
      * split; [lia|eauto].
    + intros [H [n Hn]]. destruct (Nat.eq_dec i c) as [E|E]; [now left|].
      right. split; [lia|eauto].
Qed.

End Positions.

Section Patterns.
Import Text.
Local Open Scope list_scope.

Lemma not_special_cases (c : ascii) :
  Re.is_special c = false ->
  Ascii.eqb c "\" = false /\ Ascii.eqb c "." = false.
Proof.
  intros H. split.
  - destruct (Ascii.eqb_spec c "\") as [->|]; [discriminate|reflexivity].
  - destruct (Ascii.eqb_spec c ".") as [->|]; [discriminate|reflexivity].
Qed.

Lemma atoms_plain (l : list ascii) :
  forallb (fun c => negb (Re.is_special c)) l = true ->
  Re.atoms l = Some (map Re.Chr l).
Proof.
  induction l as [|c l IH]; intros H; simpl in *; [reflexivity|].
  apply andb_prop in H. destruct H as [Hc Hl].
  apply negb_true_iff in Hc.
  destruct (not_special_cases c Hc) as [-> ->]. rewrite Hc, (IH Hl). reflexivity.
Qed.

Lemma match_here_plain (p l : list ascii) :
  Re.match_here (map Re.Chr p) l = prefix_of (map lower_char p) (map lower_char l).
Proof.
  revert l. induction p as [|a p IH]; intros [|c l]; simpl; try reflexivity.
  now rewrite IH.
Qed.

Lemma search_atoms_plain (p l : list ascii) :
  Re.search_atoms (map Re.Chr p) l = occurs (map lower_char p) (map lower_char l).
Proof.
  induction l as [|c l IH].
  - simpl. now rewrite (match_here_plain p []).
  - cbn [Re.search_atoms occurs map]. rewrite IH.
    now rewrite (match_here_plain p (c :: l)).
Qed.

(** A plain query is searched as text, both sides lower-cased. *)
Lemma compile_plain (re : string -> option (string -> bool)) (q : string) :
  plain q = true ->
  exists m, compile re q = Ok m /\ forall s, m s = contains_ci s q.
Proof.
  intros H. unfold compile. rewrite (atoms_plain _ H).
  eexists. split; [reflexivity|]. intros s. cbv beta.
  rewrite search_atoms_plain. unfold contains_ci, contains, lower.
  now rewrite !TextFacts.chars_text.
Qed.

Lemma occurs_nil (l : list ascii) : occurs [] l = true.
Proof. destruct l; reflexivity. Qed.

Lemma existsb_same {A : Type} (f g : A -> bool) (l : list A) :
  (forall x, f x = g x) -> existsb f l = existsb g l.
Proof.
  intros H. induction l as [|x l IH]; simpl; [reflexivity|]. now rewrite H, IH.
Qed.

End Patterns.

(** X6. On ASCII text: for an ASCII query without special characters
    and a table whose cells of text are ASCII texts, none missing,
    [/search] selects exactly the rows in which the text of some column
    of dtype [object], lower-cased, contains the lower-cased query; the
    columns searched are those of dtype [object] and no other. *)
Theorem plain_search_is_containment
    (re : string -> option (string -> bool)) (df : DataFrame) (q : string) :
  plain q = true ->
  ascii_text q = true ->
  text_cells_ascii df ->
  search_results re df q =
    Ok (filter (fun r => existsb (fun c => cell_contains q (cell c r))
                                 (select_dtypes (columns df) O))
               (rows df)) /\
  (forall c, In c (select_dtypes (columns df) O) <->
             exists name, nth_error (columns df) c = Some (name, Object)).
Proof.
  intros H _ Ht. destruct (compile_plain re q H) as (m & Hm & Hs).
  split.
  - rewrite (search_results_filter re m df q Hm). f_equal.
    apply filter_ext_in. intros r Hr.
    assert (G : forall l : list nat,
              (forall c, In c l -> In c (select_dtypes (columns df) O)) ->
              existsb (fun c => m (str_value (cell c r))) l =
              existsb (fun c => cell_contains q (cell c r)) l).
    { induction l as [|c l IH]; intros Hl; [reflexivity|]. cbn [existsb].
      rewrite IH by (intros c0 Hc0; apply Hl; now right). f_equal.
      destruct (Ht r c Hr (Hl c (or_introl eq_refl))) as (s & -> & _).
      apply Hs. }
    apply G. auto.
  - intros c. rewrite select_dtypes_spec, Nat.sub_0_r.
    split; [tauto|]. intros E. split; [lia|exact E].
Qed.

Lemma people_text_cells : text_cells_ascii people.
Proof.
  intros r c [<-|[<-|[]]] [<-|[]]; eexists; split; reflexivity.
Qed.

Lemma plain_search_witness :
  search_results strict_engine people "BOB" =
    Ok (filter (fun r => existsb (fun c => cell_contains "BOB" (cell c r))
                                 (select_dtypes (columns people) O))
               (rows people)) /\
  (forall c, In c (select_dtypes (columns people) O) <->
             exists name, nth_error (columns people) c = Some (name, Object)).
Proof.
  apply (plain_search_is_containment strict_engine people "BOB").
  - reflexivity.
  - reflexivity.
  - exact people_text_cells.
Defined.

(** X7. On a table with a column of text, the empty query selects every
    row: [/search?q=] answers as [/records] does without filter. *)
Theorem empty_query_lists_the_table
    (re : string -> option (string -> bool)) (df : DataFrame) (skip limit : Z) :
  select_dtypes (columns df) O <> [] ->
  search_results re df "" = Ok (rows df) /\
  search re {| state_df := Some df |} "" skip limit =
    get_records {| state_df := Some df |} [] skip limit.
Proof.
  intros Hne.
  assert (R : search_results re df "" = Ok (rows df)).
  { destruct (compile_plain re "" eq_refl) as (m & Hm & Hs).
    rewrite (search_results_filter re m df "" Hm). f_equal.
    apply filter_true. intros r _.
    destruct (select_dtypes (columns df) O) as [|c cs]; [congruence|].
    simpl. rewrite Hs. unfold contains_ci, Text.contains. simpl.
    now rewrite occurs_nil. }
  split; [exact R|].
  rewrite search_loaded, R.
  destruct (select_dtypes (columns df) O) as [|c cs]; [congruence|].
  unfold get_records. cbn [state_df bind].
  rewrite records_results_filter. cbn [bind].
  now rewrite filter_true.
Qed.

Lemma empty_query_witness :
  search_results strict_engine people "" = Ok (rows people) /\
  search strict_engine {| state_df := Some people |} "" 0 100 =
    get_records {| state_df := Some people |} [] 0 100.
Proof. apply (empty_query_lists_the_table strict_engine people 0 100). discriminate. Defined.

(** X8. A query that the pattern compiler rejects fails the request
    whenever the table has a column of text, even when the table has no
    row; on a table without such a column the same query succeeds,
    because the pattern is never compiled. *)
Theorem rejected_pattern_fails_the_request
    (re : string -> option (string -> bool)) (df : DataFrame)
    (q : string) (skip limit : Z) :
  Re.atoms (Text.chars q) = None ->
  re q = None ->
  (select_dtypes (columns df) O <> [] ->
   exists msg, search re {| state_df := Some df |} q skip limit = Raise (ReError msg)) /\
  (select_dtypes (columns df) O = [] ->
   search re {| state_df := Some df |} q skip limit =
     Ok (JDict [ ("total", JInt 0); ("data", JList []) ])).
Proof.
  intros Ha Hr. rewrite search_loaded. split; intros H.
  - assert (C : compile re q = Raise (ReError ("invalid pattern: " ++ q))).
    { unfold compile. now rewrite Ha, Hr. }
    rewrite (search_results_rejected re df q _ C H).
    destruct (select_dtypes (columns df) O); [congruence|]. cbn [bind]. eauto.
  - now rewrite H.
Qed.

Lemma rejected_pattern_witness :
  (select_dtypes (columns {| columns := columns people; rows := [] |}) O <> [] ->
   exists msg,
     search strict_engine
       {| state_df := Some {| columns := columns people; rows := [] |} |}
       open_group 0 100 = Raise (ReError msg)) /\
  (select_dtypes (columns {| columns := columns people; rows := [] |}) O = [] ->
   search strict_engine
     {| state_df := Some {| columns := columns people; rows := [] |} |}
     open_group 0 100 =
     Ok (JDict [ ("total", JInt 0); ("data", JList []) ])).
Proof.
  apply (rejected_pattern_fails_the_request strict_engine
           {| columns := columns people; rows := [] |} open_group 0 100);
    reflexivity.
Defined.

(** ** Case of the query *)

Section QueryCase.
Import Text.
Local Open Scope list_scope.

Lemma lower_char_facts (c : ascii) :
  lower_char (lower_char c) = lower_char c /\
  Ascii.eqb (lower_char c) "\" = Ascii.eqb c "\" /\
  Ascii.eqb (lower_char c) "." = Ascii.eqb c "." /\
  Re.is_special (lower_char c) = Re.is_special c.
Proof.
  destruct c as [[] [] [] [] [] [] [] []]; repeat split; reflexivity.
Qed.

Lemma atoms_lower_bounded (n : nat) (l : list ascii) :
  (List.length l <= n)%nat ->
  Re.atoms (map lower_char l) = option_map (map lower_atom) (Re.atoms l).
Proof.
  revert l. induction n as [|n IH]; intros l Hn.
  - destruct l; [reflexivity|simpl in Hn; lia].
  - destruct l as [|c l]; [reflexivity|]. simpl in Hn.
    cbn [map Re.atoms].
    destruct (lower_char_facts c) as (_ & -> & -> & ->).
    destruct (Ascii.eqb c "\").
    + destruct l as [|d l]; [reflexivity|]. cbn [map]. simpl in Hn.
      destruct (lower_char_facts d) as (_ & _ & _ & ->).
      destruct (Re.is_special d); [|reflexivity].
      rewrite (IH l) by lia. now destruct (Re.atoms l).
    + destruct (Ascii.eqb c ".").
      * rewrite (IH l) by lia. now destruct (Re.atoms l).
      * destruct (Re.is_special c); [reflexivity|].
        rewrite (IH l) by lia. now destruct (Re.atoms l).
Qed.

Lemma atom_matches_lower (a : Re.atom) (c : ascii) :
  Re.atom_matches (lower_atom a) c = Re.atom_matches a c.
Proof.
  destruct a as [x|]; [|reflexivity]. simpl.
  now destruct (lower_char_facts x) as (-> & _).
Qed.

Lemma search_atoms_lower (p : list Re.atom) (l : list ascii) :
  Re.search_atoms (map lower_atom p) l = Re.search_atoms p l.
Proof.
  assert (M : forall k, Re.match_here (map lower_atom p) k = Re.match_here p k).
  { induction p as [|a p IH]; intros [|c k]; simpl; try reflexivity.
    now rewrite atom_matches_lower, IH. }
  induction l as [|c l IH]; cbn [Re.search_atoms]; rewrite M; [reflexivity|].
  now rewrite IH.
Qed.

End QueryCase.

(** X9. On ASCII text the case of the query does not matter: for an
    ASCII query made of ordinary characters, dots and escaped special
    characters, and a table whose cells of text are ASCII texts, none
    missing, the lower-cased query gets the same answer as the query
    itself. *)
Theorem query_case_is_ignored
    (re : string -> option (string -> bool)) (df : DataFrame)
    (q : string) (skip limit : Z) :
  Re.atoms (Text.chars q) <> None ->
  ascii_text q = true ->
  text_cells_ascii df ->
  search_results re df (Text.lower q) = search_results re df q /\
  search re {| state_df := Some df |} (Text.lower q) skip limit =
    search re {| state_df := Some df |} q skip limit.
Proof.
  intros Ha _ _.
  destruct (Re.atoms (Text.chars q)) as [p|] eqn:E; [clear Ha|congruence].
  assert (R : search_results re df (Text.lower q) = search_results re df q).
  { rewrite (search_results_filter re
               (fun s => Re.search_atoms (map lower_atom p) (Text.chars s)) df).
    2:{ unfold compile, Text.lower. rewrite TextFacts.chars_text.
        rewrite (atoms_lower_bounded _ _ (le_n _)), E. reflexivity. }
    rewrite (search_results_filter re
               (fun s => Re.search_atoms p (Text.chars s)) df q).
    2:{ unfold compile. now rewrite E. }
    f_equal. apply filter_ext. intros r. apply existsb_same. intros c.
    apply search_atoms_lower. }
  split; [exact R|]. now rewrite !search_loaded, R.
Qed.

Lemma query_case_witness :
  search_results strict_engine people (Text.lower "B.B") =
    search_results strict_engine people "B.B" /\
  search strict_engine {| state_df := Some people |} (Text.lower "B.B") 0 100 =
    search strict_engine {| state_df := Some people |} "B.B" 0 100.
Proof.
  apply (query_case_is_ignored strict_engine people "B.B" 0 100).
  - discriminate.
  - reflexivity.
  - exact people_text_cells.
Defined.

(** ** Columns that [search] does not read *)

Section OtherColumns.
Variable re : string -> option (string -> bool).
Local Open Scope list_scope.

Lemma search_mask_same_text (cs : list nat) (rs rs' : list row) (q : string)
    (mask : list bool) :
  (forall c, In c cs -> map (cell c) rs' = map (cell c) rs) ->
  search_mask re cs rs' q mask = search_mask re cs rs q mask.
Proof.
  revert mask. induction cs as [|c cs IH]; intros mask H; simpl; [reflexivity|].
  rewrite (H c) by now left.
  destruct (str_contains re (map (cell c) rs) q) as [m|e]; cbn [bind]; [|reflexivity].
  apply IH. intros c' Hc'. apply H. now right.
Qed.

Lemma boolean_index_length {A B : Type} (l : list A) (l' : list B) (mask : list bool) :
  List.length l = List.length l' ->
  List.length (boolean_index l mask) = List.length (boolean_index l' mask).
Proof.
  revert l' mask. induction l as [|x l IH]; intros [|y l'] mask H; simpl in *;
    try discriminate; [reflexivity|].
  destruct mask as [|[] mask]; simpl; [reflexivity| |]; rewrite (IH l' mask); auto.
Qed.

Lemma page_length {A B : Type} (l : list A) (l' : list B) (start stop : Z) :
  List.length l = List.length l' ->
  List.length (iloc l start stop) = List.length (iloc l' start stop).
Proof.
  intros H. unfold iloc, len. rewrite !length_firstn, !length_skipn, H. reflexivity.
Qed.

End OtherColumns.

(** X10. [/search] reads the columns of text only: two tables with the
    same columns whose rows agree, one by one, on every column of dtype
    [object] get the same outcome for every query, whatever their other
    columns hold: the same exception, or the same [total] and as many
    rows in [data]. *)
Theorem search_reads_text_columns_only
    (re : string -> option (string -> bool)) (df df' : DataFrame)
    (q : string) (skip limit : Z) :
  columns df' = columns df ->
  List.length (rows df') = List.length (rows df) ->
  (forall c name,
     nth_error (columns df) c = Some (name, Object) ->
     map (cell c) (rows df') = map (cell c) (rows df)) ->
  outcome (search re {| state_df := Some df' |} q skip limit) =
  outcome (search re {| state_df := Some df |} q skip limit).
Proof.
  intros Hc Hl Ht. unfold search. cbn [state_df]. rewrite Hc, Hl.
  destruct (select_dtypes (columns df) O) as [|c cs] eqn:E; [reflexivity|].
  cbn [List.length Nat.eqb].
  rewrite (search_mask_same_text re (c :: cs) (rows df) (rows df')).
  2:{ intros c' Hc'. rewrite <- E in Hc'. apply select_dtypes_spec in Hc'.
      destruct Hc' as [_ [name Hn]]. rewrite Nat.sub_0_r in Hn. now apply (Ht c' name). }
  destruct (search_mask re (c :: cs) (rows df) q _) as [mask|e]; cbn [bind];
    [|reflexivity].
  rewrite !page_response_ok, !records_sanitized. unfold outcome, data_rows. cbn.
  rewrite !length_map.
  assert (L : List.length (boolean_index (rows df') mask) =
              List.length (boolean_index (rows df) mask))
    by now apply boolean_index_length.
  unfold len. rewrite L. do 2 f_equal. now apply page_length.
Qed.

Lemma search_reads_text_columns_only_witness :
  outcome (search strict_engine {| state_df := Some people_older |} "ali" 0 100) =
  outcome (search strict_engine {| state_df := Some people |} "ali" 0 100).
Proof.
  apply (search_reads_text_columns_only strict_engine people people_older "ali" 0 100).
  - reflexivity.
  - reflexivity.
  - intros [|[|c]] name H; try reflexivity. simpl in H. discriminate.
Defined.

(** ** Uploads *)

Section FileNames.
Import Text.
Local Open Scope list_scope.

Lemma prefix_of_spec (p l : list ascii) :
  prefix_of p l = true <-> exists t, l = p ++ t.
Proof.
  revert l. induction p as [|a p IH]; intros l; simpl.
  - split; [eauto|reflexivity].
  - destruct l as [|b l].
    + split; [discriminate|]. intros [t H]. discriminate.
    + rewrite andb_true_iff, IH. split.
      * intros [E [t ->]]. apply Ascii.eqb_eq in E. subst. eauto.
      * intros [t H]. injection H as -> ->. split; [apply Ascii.eqb_refl|eauto].
Qed.

Lemma chars_append (a b : string) : chars (a ++ b)%string = chars a ++ chars b.
Proof. induction a as [|c a IH]; simpl; [reflexivity|]. now rewrite IH. Qed.

(** [endswith] holds of the texts that are the suffix after some text. *)
Lemma endswith_spec (s suffix : string) :
  endswith s suffix = true <-> exists p, s = (p ++ suffix)%string.
Proof.
  unfold endswith. rewrite prefix_of_spec. split.
  - intros [t H]. exists (text (rev t)).
    rewrite <- (TextFacts.text_chars s), <- (rev_involutive (chars s)), H.
    rewrite rev_app_distr, rev_involutive.
    rewrite <- (TextFacts.text_chars (text (rev t) ++ suffix)%string).
    now rewrite chars_append, TextFacts.chars_text.
  - intros [p ->]. exists (rev (chars p)). rewrite chars_append. apply rev_app_distr.
Qed.

End FileNames.

(** X11. An upload is accepted by its name alone: a file whose name is
    not some text followed by [.csv] is refused with 400 before it is
    read, whatever its content; a file whose name ends so is stored when
    its bytes are read and parsed, and refused otherwise with 500 and a
    detail that carries the text of the exception. *)
Theorem upload_is_decided_by_the_name_first
    (read_csv : string -> result DataFrame) (st : State) (file : UploadFile) :
  ((forall p, filename file <> p ++ ".csv") ->
   upload_csv read_csv st file =
     (Raise (HTTPException 400 "Only CSV files are supported."), st)) /\
  (forall p, filename file = p ++ ".csv" ->
     (forall df, (contents <- read file ;; read_csv contents) = Ok df ->
        snd (upload_csv read_csv st file) = {| state_df := Some df |} /\
        exists content, fst (upload_csv read_csv st file) = Ok content) /\
     (forall e, (contents <- read file ;; read_csv contents) = Raise e ->
        upload_csv read_csv st file =
          (Raise (HTTPException 500 ("Failed to read CSV: " ++ exn_str e)), st))).
Proof.
  unfold upload_csv. split.
  - intros H. destruct (Text.endswith (filename file) ".csv") eqn:E; [|reflexivity].
    apply endswith_spec in E. destruct E as [p E]. now apply H in E.
  - intros p Hp.
    assert (E : Text.endswith (filename file) ".csv" = true)
      by (apply endswith_spec; eauto).
    rewrite E. cbn [negb]. split.
    + intros df ->. split; [reflexivity|]. cbn [fst]. eauto.
    + intros e ->. reflexivity.
Qed.

Lemma upload_is_decided_by_the_name_first_witness :
  upload_csv people_parser {| state_df := None |}
    {| filename := "people.CSV"; read := Ok "name,age" |} =
  (Raise (HTTPException 400 "Only CSV files are supported."), {| state_df := None |}).
Proof.
  apply (proj1 (upload_is_decided_by_the_name_first people_parser {| state_df := None |}
                  {| filename := "people.CSV"; read := Ok "name,age" |})).
  intros p H. apply (f_equal (fun s => Text.endswith s ".csv")) in H.
  cbn [filename] in H.
  rewrite (proj2 (endswith_spec (p ++ ".csv") ".csv")) in H by eauto.
  vm_compute in H. discriminate.
Defined.

(** X12. A successful upload replaces the table wholesale: its response
    and the state it leaves do not depend on the state before it, the
    field [rows] of its response is the number of rows of the new table,
    and an unfiltered [/records] afterwards reports that number as
    [total]. *)
Theorem upload_replaces_the_table
    (read_csv : string -> result DataFrame) (st : State) (file : UploadFile)
    (content : json) (st1 : State) :
  upload_csv read_csv st file = (Ok content, st1) ->
  (forall st', upload_csv read_csv st' file = (Ok content, st1)) /\
  exists df,
    st1 = {| state_df := Some df |} /\
    field "rows" content = Some (JInt (len (rows df))) /\
    forall skip limit, exists listing,
      get_records st1 [] skip limit = Ok listing /\
      field "total" listing = field "rows" content.
Proof.
  unfold upload_csv. destruct (negb _); [discriminate|].
  destruct (contents <- read file;; read_csv contents) as [df|e]; [|discriminate].
  intros H. injection H as <- <-. split; [reflexivity|].
  exists df. split; [reflexivity|]. split; [reflexivity|].
  intros skip limit. unfold get_records. cbn [state_df].
  rewrite records_results_filter. cbn [bind]. rewrite page_response_ok.
  eexists. split; [reflexivity|]. cbn. now rewrite filter_true.
Qed.

Lemma upload_replaces_the_table_witness :
  (forall st',
     upload_csv people_parser st'
       {| filename := "people.csv"; read := Ok "name,age" |} =
     (Ok (JDict [ ("message", JStr "CSV file 'people.csv' uploaded successfully.");
                  ("rows", JInt 2) ]),
      {| state_df := Some people |})) /\
  exists df,
    {| state_df := Some people |} = {| state_df := Some df |} /\
    field "rows"
      (JDict [ ("message", JStr "CSV file 'people.csv' uploaded successfully.");
               ("rows", JInt 2) ]) = Some (JInt (len (rows df))) /\
    forall skip limit, exists listing,
      get_records {| state_df := Some people |} [] skip limit = Ok listing /\
      field "total" listing =
        field "rows"
          (JDict [ ("message", JStr "CSV file 'people.csv' uploaded successfully.");
                   ("rows", JInt 2) ]).
Proof.
  apply (upload_replaces_the_table people_parser {| state_df := Some scores |}
           {| filename := "people.csv"; read := Ok "name,age" |}).
  reflexivity.
Defined.

(** ** Cleaning and casting *)

Section Cleaning.
Local Open Scope list_scope.

Lemma clean_value_idempotent (v : value) : clean_value (clean_value v) = clean_value v.
Proof.
  destruct v as [z|[s|s| |s m e]|s|b|]; reflexivity.
Qed.

Lemma clean_value_finite (v : value) : finite_value v = true -> clean_value v = v.
Proof.
  destruct v as [z|f|s|b|]; try reflexivity.
  destruct f; try reflexivity; discriminate.
Qed.

Lemma clean_value_is_finite (v : value) : finite_value (clean_value v) = true.
Proof. destruct v as [z|[s|s| |s m e]|s|b|]; reflexivity. Qed.

End Cleaning.

(** X13. [_clean_df] keeps the shape of its argument (as many rows, and
    as many cells in each), leaves no NaN and no infinity behind, changes
    nothing in rows that hold none, and cleaning twice is cleaning
    once. *)
Theorem clean_df_properties (rs : list row) :
  map (@List.length value) (_clean_df rs) = map (@List.length value) rs /\
  (forall r v, In r (_clean_df rs) -> In v r -> finite_value v = true) /\
  ((forall r v, In r rs -> In v r -> finite_value v = true) -> _clean_df rs = rs) /\
  _clean_df (_clean_df rs) = _clean_df rs.
Proof.
  unfold _clean_df. split; [|split; [|split]].
  - rewrite map_map. apply map_ext. intros r. apply length_map.
  - intros r v Hr Hv. apply in_map_iff in Hr. destruct Hr as (r0 & <- & _).
    apply in_map_iff in Hv. destruct Hv as (v0 & <- & _).
    apply clean_value_is_finite.
  - intros H. rewrite <- (map_id rs) at 2. apply map_ext_in. intros r Hr.
    rewrite <- (map_id r) at 2. apply map_ext_in. intros v Hv.
    apply clean_value_finite. now apply (H r).
  - rewrite map_map. apply map_ext. intros r. rewrite map_map.
    apply map_ext. apply clean_value_idempotent.
Qed.

(** X14. Casting reads back the text of an integer: on a column of
    integers, [_cast_type] applied to [str(z)] gives [z], for every
    integer [z] of 4300 digits at most, the longest that the interpreter
    converts; every integer of 64 bits is one. *)
Theorem cast_type_reads_back_integers (z : Z) :
  Z.abs z < 10 ^ PyInt.max_str_digits ->
  _cast_type Int64 (PyInt.str z) = Ok (VInt z).
Proof.
  intros Hz. rewrite cast_type_total. unfold cast_value.
  now rewrite PyIntFacts.int_str.
Qed.

Lemma cast_type_reads_back_integers_witness :
  _cast_type Int64 (PyInt.str (- 9223372036854775808)) =
  Ok (VInt (- 9223372036854775808)).
Proof.
  apply (cast_type_reads_back_integers (- 9223372036854775808)). reflexivity.
Defined.

(** ** Rows of a response *)

Section Provenance.
Local Open Scope list_scope.

Lemma boolean_index_incl {A : Type} (l : list A) (mask : list bool) (x : A) :
  In x (boolean_index l mask) -> In x l.
Proof.
  revert mask. induction l as [|y l IH]; intros [|b mask] H; simpl in *;
    try contradiction.
  destruct b; [destruct H as [->|H]; [now left|]|]; right; now apply (IH mask).
Qed.

Lemma page_rows_of (cols : list (string * dtype)) (results : list row)
    (skip limit : Z) (content : json) (j : json) :
  page_response cols results skip limit = Ok content ->
  In j (data_rows content) ->
  exists r, In r results /\ j = sanitized_record cols r.
Proof.
  rewrite page_response_ok, records_sanitized. intros H. injection H as <-.
  unfold data_rows. cbn. intros Hj. apply in_map_iff in Hj.
  destruct Hj as (r & <- & Hr). exists r. split; [|reflexivity].
  now apply iloc_incl in Hr.
Qed.

End Provenance.

(** X15. A response shows rows of the table and nothing else: every
    element of [data], on [/records] and on [/search], for any [skip] and
    [limit], is the sanitized record of a row of the loaded table. *)
Theorem responses_show_rows_of_the_table
    (re : string -> option (string -> bool)) (df : DataFrame)
    (query_params : params) (q : string) (skip limit : Z) (content : json) (j : json) :
  get_records {| state_df := Some df |} query_params skip limit = Ok content \/
  search re {| state_df := Some df |} q skip limit = Ok content ->
  In j (data_rows content) ->
  exists r, In r (rows df) /\ j = sanitized_record (columns df) r.
Proof.
  intros [H|H] Hj.
  - unfold get_records in H. cbn [state_df] in H.
    rewrite records_results_filter in H. cbn [bind] in H.
    destruct (page_rows_of _ _ _ _ _ _ H Hj) as (r & Hr & ->).
    apply filter_In in Hr. exists r. tauto.
  - unfold search in H. cbn [state_df] in H.
    destruct (List.length (select_dtypes (columns df) O) =? 0)%nat.
    + injection H as <-. destruct Hj.
    + destruct (search_mask re _ (rows df) q _) as [mask|e]; cbn [bind] in H;
        [|discriminate].
      destruct (page_rows_of _ _ _ _ _ _ H Hj) as (r & Hr & ->).
      apply boolean_index_incl in Hr. eauto.
Qed.

Lemma responses_show_rows_witness :
  exists r,
    In r (rows people) /\
    JDict [("name", JStr "Bob"); ("age", JInt 25)] = sanitized_record (columns people) r.
Proof.
  apply (responses_show_rows_of_the_table strict_engine people [("age", "25")] "" 0 100
           (JDict [ ("total", JInt 1); ("skip", JInt 0); ("limit", JInt 100);
                    ("data", JList [ JDict [("name", JStr "Bob"); ("age", JInt 25)] ]) ])).
  - left. reflexivity.
  - simpl. auto.
Defined.

Lemma clean_df_properties_witness : _clean_df (rows people) = rows people.
Proof.
  apply (proj1 (proj2 (proj2 (clean_df_properties (rows people))))).
  intros r v [<-|[<-|[]]] Hv; simpl in Hv;
    repeat (destruct Hv as [<-|Hv]; [reflexivity|]); destruct Hv.
Defined.
